(** * NYC subway ridership dashboard ([app.py]): a shallow embedding

    [app.py] is a Streamlit script: it loads one CSV into a pandas
    [DataFrame], derives a per-station summary with [groupby().agg()],
    narrows both frames to the borough picked in the sidebar, and feeds the
    result to a fixed sequence of chart and metric blocks.

    The embedding keeps the shape of the script.  A [DataFrame] is a list of
    rows, each carrying its index label; a column of Python objects read from
    the CSV is a column of [cell]s, where [None] is the missing value (NaN)
    that [read_csv] produces for a blank field; an [int64] column is a column
    of [Z] whose sums wrap around; a [float64] is a primitive binary64 float;
    a [datetime64[ns]] value is its count of nanoseconds since the epoch.
    Code that can raise returns a [result].

    Embedded blocks: [load_data], [create_station_summary], the start-up
    [try]/[except], the sidebar selection, the filter block, the
    aggregations behind every chart, the key-metric cards, the two top-10
    bar charts, the weekly heat map and the raw-data preview, in the order
    of the script.  Two library calls decide how a run goes on and are
    parameters of the script: the conversion of a text cell by
    [pd.to_datetime], and the drawing of a chart, which returns or raises.
    The general theorems hold for every such pair; the examples run with
    the conversion of [Strptime] and a plotting library that refuses a
    negative marker size. *)

From Stdlib Require Import ZArith List Bool String Ascii Permutation Sorted Lia.
From Stdlib Require Import Floats.
Import ListNotations.

Open Scope string_scope.
Open Scope Z_scope.

(* ================================================================== *)
(** * Exceptions and fallible computations                             *)
(* ================================================================== *)

(** The Python exceptions the embedded code can raise. *)
Inductive exn : Type :=
| FileNotFoundError
| PermissionError
| ValueError
| KeyError
| TypeError.

Inductive result (A : Type) : Type :=
| Ok (a : A)
| Raise (e : exn).

Arguments Ok {A} a.
Arguments Raise {A} e.

Definition bind {A B : Type} (m : result A) (k : A -> result B) : result B :=
  match m with
  | Ok a => k a
  | Raise e => Raise e
  end.

Notation "x <- m ;; k" := (bind m (fun x => k))
  (at level 61, m at next level, right associativity).

Notation "'do' m ;; k" := (bind m (fun _ => k))
  (at level 61, m at next level, right associativity).

(** [for row in rows: f row], stopping at the first exception. *)
Fixpoint mapM {A B : Type} (f : A -> result B) (l : list A) : result (list B) :=
  match l with
  | [] => Ok []
  | x :: l' => y <- f x ;; ys <- mapM f l' ;; Ok (y :: ys)
  end.

(* ================================================================== *)
(** * Machine numbers                                                  *)
(* ================================================================== *)

Module I64.

(** Two's-complement reduction to the [int64] range. *)
Definition wrap (z : Z) : Z := (z + 2 ^ 63) mod 2 ^ 64 - 2 ^ 63.

Definition add (a b : Z) : Z := wrap (a + b).

(** [Series.sum()] on an [int64] column: the accumulator is an [int64]. *)
Definition sum (l : list Z) : Z := fold_left add l 0.

Definition in_range (z : Z) : Prop := - 2 ^ 63 <= z < 2 ^ 63.

End I64.

(** The exact sum of a column, used to state what the wrapped sum is. *)
Definition zsum (l : list Z) : Z := fold_right Z.add 0 l.

Module F64.

(** Conversion of an integer to the nearest binary64 float. *)
Definition of_Z (z : Z) : float :=
  SF2Prim (binary_normalize prec emax z 0 false).

Definition sum (l : list float) : float :=
  fold_left PrimFloat.add l PrimFloat.zero.

(** ** The mean of a group

    [groupby().mean()] adds the values of a group with a running
    compensation (Kahan's summation): a state is the sum so far and the
    compensation; a compensation that is NaN is reset to zero. *)
Definition kahan_step (state : float * float) (x : float) : float * float :=
  let y := PrimFloat.sub x (snd state) in
  let t := PrimFloat.add (fst state) y in
  let c := PrimFloat.sub (PrimFloat.sub t (fst state)) y in
  (t, if PrimFloat.is_nan c then PrimFloat.zero else c).

Definition kahan_sum (l : list float) : float :=
  fst (fold_left kahan_step l (PrimFloat.zero, PrimFloat.zero)).

(** The mean of a group of a [float64] column: missing values (NaN) are
    skipped, and the mean of no value at all is NaN. *)
Definition mean (l : list float) : float :=
  let present := filter (fun x => negb (PrimFloat.is_nan x)) l in
  match present with
  | [] => PrimFloat.nan
  | _ :: _ =>
      PrimFloat.div (kahan_sum present) (of_Z (Z.of_nat (List.length present)))
  end.

(** The mean of a group of an [int64] column: the values are converted to
    floats first. *)
Definition group_mean_int (l : list Z) : float := mean (map of_Z l).

(** ** The mean of a whole column

    [Series.mean()] of an [int64] column is NumPy's sum with a float
    accumulator, divided by the count.  NumPy converts the column in
    buffers of 8192 cells and adds each buffer up pairwise: fewer than
    eight values in order; up to 128 values in eight interleaved partial
    sums that are then combined, the values past the last full group of
    eight added in order; more than 128 by halves, the first half a multiple
    of eight long. *)
Fixpoint add_groups (acc : list float) (l : list float) (groups : nat)
  : list float * list float :=
  match groups with
  | O => (acc, l)
  | S groups' =>
      add_groups (map (fun ax => PrimFloat.add (fst ax) (snd ax))
                      (combine acc (firstn 8 l)))
                 (skipn 8 l) groups'
  end.

Definition block_sum (l : list float) : float :=
  let '(r, rest) := add_groups (firstn 8 l) (skipn 8 l)
                               (List.length l / 8 - 1) in
  let r_ i := nth i r PrimFloat.zero in
  let res :=
    PrimFloat.add
      (PrimFloat.add (PrimFloat.add (r_ 0%nat) (r_ 1%nat))
                     (PrimFloat.add (r_ 2%nat) (r_ 3%nat)))
      (PrimFloat.add (PrimFloat.add (r_ 4%nat) (r_ 5%nat))
                     (PrimFloat.add (r_ 6%nat) (r_ 7%nat))) in
  fold_left PrimFloat.add rest res.

Fixpoint pairwise_sum (fuel : nat) (l : list float) : float :=
  let n := List.length l in
  if (n <? 8)%nat then fold_left PrimFloat.add l PrimFloat.zero
  else if (n <=? 128)%nat then block_sum l
  else
    match fuel with
    | O => block_sum l
    | S fuel' =>
        let half := (n / 2 - (n / 2) mod 8)%nat in
        PrimFloat.add (pairwise_sum fuel' (firstn half l))
                      (pairwise_sum fuel' (skipn half l))
    end.

Fixpoint buffered_sum (fuel : nat) (acc : float) (l : list float) : float :=
  match fuel with
  | O => acc
  | S fuel' =>
      match l with
      | [] => acc
      | _ :: _ =>
          buffered_sum fuel'
            (PrimFloat.add acc (pairwise_sum 13 (firstn (Z.to_nat 8192) l)))
            (skipn (Z.to_nat 8192) l)
      end
  end.

(** [mean()] of an [int64] column; a column without rows has mean NaN. *)
Definition mean_int (l : list Z) : float :=
  match l with
  | [] => PrimFloat.nan
  | _ :: _ =>
      PrimFloat.div
        (buffered_sum (S (List.length l / Z.to_nat 8192)) PrimFloat.zero (map of_Z l))
        (of_Z (Z.of_nat (List.length l)))
  end.

End F64.

(* ================================================================== *)
(** * Cells                                                            *)
(* ================================================================== *)

(** A cell of an object column: a string, or the missing value. *)
Definition cell : Type := option string.

(** Python's [==] between two cells: NaN equals nothing, itself included. *)
Definition cell_eqb (a b : cell) : bool :=
  match a, b with
  | Some x, Some y => String.eqb x y
  | _, _ => false
  end.

(** The identity test [unique()] uses: all missing values are one value. *)
Definition cell_same (a b : cell) : bool :=
  match a, b with
  | Some x, Some y => String.eqb x y
  | None, None => true
  | _, _ => false
  end.

(** [str(c)] as it appears in an f-string. *)
Definition cell_str (c : cell) : string :=
  match c with
  | Some s => s
  | None => "nan"
  end.

(* ================================================================== *)
(** * Frames and the pandas operations the script calls                *)
(* ================================================================== *)

(** A frame: rows in order, each with its index label. *)
Definition frame (A : Type) : Type := list (nat * A).

Definition values {A : Type} (df : frame A) : list A := map snd df.

Definition labels {A : Type} (df : frame A) : list nat := map fst df.

(** A fresh [RangeIndex], as [read_csv] and [reset_index()] give. *)
Definition range_index {A : Type} (rows : list A) : frame A :=
  combine (seq 0 (List.length rows)) rows.

(** [df[mask]]: rows are kept with their labels. *)
Definition select {A : Type} (p : A -> bool) (df : frame A) : frame A :=
  filter (fun row => p (snd row)) df.

(** [df.head(n)]. *)
Definition head {A : Type} (n : nat) (df : frame A) : frame A := firstn n df.

(** [df.empty]. *)
Definition empty {A : Type} (df : frame A) : bool :=
  match df with
  | [] => true
  | _ :: _ => false
  end.

Section Order.

Context {K : Type}.
Variable eqb : K -> K -> bool.
Variable leb : K -> K -> bool.

(** Distinct values in order of first appearance ([Series.unique()]). *)
Fixpoint unique (l : list K) : list K :=
  match l with
  | [] => []
  | x :: l' => x :: filter (fun y => negb (eqb y x)) (unique l')
  end.

Fixpoint insert (x : K) (l : list K) : list K :=
  match l with
  | [] => [x]
  | y :: l' => if leb x y then x :: y :: l' else y :: insert x l'
  end.

(** A stable sort: equal elements keep their relative order. *)
Definition sort (l : list K) : list K := fold_right insert [] l.

(** Position of the first element equal to [x]. *)
Fixpoint position (x : K) (l : list K) : option nat :=
  match l with
  | [] => None
  | y :: l' => if eqb y x then Some O else option_map S (position x l')
  end.

End Order.

Section GroupBy.

Context {K R : Type}.
Variable eqb : K -> K -> bool.
Variable leb : K -> K -> bool.
(** The group key of a row; [None] when one of its key cells is missing. *)
Variable key : R -> option K.

Definition present_keys (rows : list R) : list K :=
  flat_map (fun r => match key r with Some k => [k] | None => [] end) rows.

(** The observed keys, each once, in ascending order ([sort=True]). *)
Definition group_keys (rows : list R) : list K :=
  sort leb (unique eqb (present_keys rows)).

Definition in_group (k : K) (r : R) : bool :=
  match key r with
  | Some k' => eqb k' k
  | None => false
  end.

(** [df.groupby(keys)] with the defaults [sort=True, dropna=True]: one
    group per observed key, in ascending key order; the rows of a group
    keep their order; a row with a missing key is in no group. *)
Definition groupby (rows : list R) : list (K * list R) :=
  map (fun k => (k, filter (in_group k) rows)) (group_keys rows).

End GroupBy.

(** Lexicographic order and equality on a pair of keys. *)
Definition pair_eqb {A B : Type} (ea : A -> A -> bool) (eb : B -> B -> bool)
  (x y : A * B) : bool :=
  ea (fst x) (fst y) && eb (snd x) (snd y).

Definition pair_leb {A B : Type} (ea : A -> A -> bool) (la : A -> A -> bool)
  (lb : B -> B -> bool) (x y : A * B) : bool :=
  if ea (fst x) (fst y) then lb (snd x) (snd y) else la (fst x) (fst y).

Section TopN.

Context {A : Type}.
Variable col : A -> Z.

(** [df.sort_values(col)]: ascending.  The order among rows of equal
    value is that of the sorting routine the platform picks; here they keep
    their order, and the theorems on sorted frames use only that the result
    is the same rows in ascending order. *)
Definition sort_values (df : frame A) : frame A :=
  sort (fun x y => col (snd x) <=? col (snd y)) df.

(** [df.nlargest(n, col)]: the [n] rows with the largest [col], largest
    first; among equal values the earlier row comes first
    ([keep='first']). With fewer than [n] rows, all of them. *)
Definition nlargest (n : nat) (df : frame A) : frame A :=
  firstn n (sort (fun x y => col (snd y) <=? col (snd x)) df).

(** Label of the first row holding the maximum of [col]. *)
Fixpoint argmax_from (best : nat * A) (df : frame A) : nat * A :=
  match df with
  | [] => best
  | row :: df' =>
      if col (snd best) <? col (snd row) then argmax_from row df'
      else argmax_from best df'
  end.

(** [df[col].idxmax()]: raises [ValueError] on an empty column. *)
Definition idxmax (df : frame A) : result nat :=
  match df with
  | [] => Raise ValueError
  | row :: df' => Ok (fst (argmax_from row df'))
  end.

(** [df.loc[label]]: raises [KeyError] when no row has the label. *)
Fixpoint loc (df : frame A) (label : nat) : result A :=
  match df with
  | [] => Raise KeyError
  | row :: df' => if Nat.eqb (fst row) label then Ok (snd row) else loc df' label
  end.

End TopN.

(* ================================================================== *)
(** * Timestamps                                                       *)
(* ================================================================== *)

(** A [datetime64[ns]] value: nanoseconds since 1970-01-01 00:00:00. *)
Definition Timestamp : Type := Z.

Module Calendar.

Definition ns_per_second : Z := 1000000000.
Definition ns_per_hour : Z := 3600 * ns_per_second.
Definition ns_per_day : Z := 86400 * ns_per_second.

Definition is_leap (y : Z) : bool :=
  (y mod 4 =? 0) && (negb (y mod 100 =? 0) || (y mod 400 =? 0)).

Definition days_in_month (y m : Z) : Z :=
  if m =? 2 then (if is_leap y then 29 else 28)
  else if (m =? 4) || (m =? 6) || (m =? 9) || (m =? 11) then 30
  else 31.

(** Days from 1970-01-01 to the given proleptic Gregorian date. *)
Definition days_from_civil (y m d : Z) : Z :=
  let y' := if m <=? 2 then y - 1 else y in
  let era := y' / 400 in
  let yoe := y' - era * 400 in
  let doy := (153 * (if 2 <? m then m - 3 else m + 9) + 2) / 5 + d - 1 in
  let doe := yoe * 365 + yoe / 4 - yoe / 100 + doy in
  era * 146097 + doe - 719468.

(** The inverse: year, month and day of a day count. *)
Definition civil_from_days (days : Z) : Z * Z * Z :=
  let z := days + 719468 in
  let era := z / 146097 in
  let doe := z - era * 146097 in
  let yoe := (doe - doe / 1460 + doe / 36524 - doe / 146096) / 365 in
  let doy := doe - (365 * yoe + yoe / 4 - yoe / 100) in
  let mp := (5 * doy + 2) / 153 in
  let d := doy - (153 * mp + 2) / 5 + 1 in
  let m := if mp <? 10 then mp + 3 else mp - 9 in
  let y := yoe + era * 400 in
  (if m <=? 2 then y + 1 else y, m, d).

(** [.dt.date]: the calendar day, as a day count. *)
Definition date (t : Timestamp) : Z := t / ns_per_day.

(** [.dt.hour]. *)
Definition hour (t : Timestamp) : Z := (t / ns_per_hour) mod 24.

(** [.dt.day_name()]; 1970-01-01 was a Thursday. *)
Definition day_name (t : Timestamp) : string :=
  let w := (date t + 3) mod 7 in
  if w =? 0 then "Monday"
  else if w =? 1 then "Tuesday"
  else if w =? 2 then "Wednesday"
  else if w =? 3 then "Thursday"
  else if w =? 4 then "Friday"
  else if w =? 5 then "Saturday"
  else "Sunday".

End Calendar.

(** Parsing one cell under the literal format ['%m/%d/%Y %I:%M:%S %p'].
    The format is turned into a regular expression, matched from the start
    of the cell without regard to case, and the whole cell must match.  Each
    directive has the pattern the format language gives it:
    [%m] and [%I] are [1[0-2]|0[1-9]|[1-9]];
    [%d] is [3[0-1]|[1-2]\d|0[1-9]|[1-9]| [1-9]];
    [%Y] is [\d\d\d\d]; [%M] is [[0-5]\d|\d];
    [%S] is [6[0-1]|[0-5]\d|\d]; [%p] is [am|pm];
    a blank of the format is [\s+].
    A bracketed class is a range of ASCII digits, while [\d] and [\s] are
    the decimal digits and the white space of Unicode.  The alternatives of
    a directive are tried in order, and the first that matches is kept:
    every number of the format is followed by a character that is no
    digit, so a later alternative cannot make the rest match when an
    earlier one matched. *)
Module Strptime.

(** A cell is text; a Rocq string holds its UTF-8 encoding, and the
    pattern reads code points. *)
Fixpoint decode_utf8 (bytes : list Z) : list Z :=
  match bytes with
  | [] => []
  | b0 :: r0 =>
      if b0 <? 192 then b0 :: decode_utf8 r0
      else
        match r0 with
        | [] => [b0]
        | b1 :: r1 =>
            if b0 <? 224 then ((b0 - 192) * 64 + (b1 - 128)) :: decode_utf8 r1
            else
              match r1 with
              | [] => [b0; b1]
              | b2 :: r2 =>
                  if b0 <? 240
                  then ((b0 - 224) * 4096 + (b1 - 128) * 64 + (b2 - 128))
                       :: decode_utf8 r2
                  else
                    match r2 with
                    | [] => [b0; b1; b2]
                    | b3 :: r3 =>
                        ((b0 - 240) * 262144 + (b1 - 128) * 4096
                         + (b2 - 128) * 64 + (b3 - 128)) :: decode_utf8 r3
                    end
              end
        end
  end.

Definition code_points (s : string) : list Z :=
  decode_utf8 (map (fun c => Z.of_N (N_of_ascii c)) (list_ascii_of_string s)).

(** The code points of the zeros of the decimal digits ([\d], Unicode 14);
    the nine other digits of a script follow its zero. *)
Definition digit_zeros : list Z :=
  [48; 1632; 1776; 1984; 2406; 2534; 2662; 2790; 2918; 3046;
   3174; 3302; 3430; 3558; 3664; 3792; 3872; 4160; 4240; 6112;
   6160; 6470; 6608; 6784; 6800; 6992; 7088; 7232; 7248; 42528;
   43216; 43264; 43472; 43504; 43600; 44016; 65296; 66720; 68912; 69734;
   69872; 69942; 70096; 70384; 70736; 70864; 71248; 71360; 71472; 71904;
   72016; 72784; 73040; 73120; 92768; 92864; 93008; 120782; 120792; 120802;
   120812; 120822; 123200; 123632; 125264; 130032].

(** The value of a decimal digit. *)
Definition digit_value (c : Z) : option Z :=
  match find (fun z => (z <=? c) && (c <? z + 10)) digit_zeros with
  | Some z => Some (c - z)
  | None => None
  end.

(** White space ([\s]). *)
Definition is_space (c : Z) : bool :=
  ((9 <=? c) && (c <=? 13)) || ((28 <=? c) && (c <=? 32))
  || (c =? 133) || (c =? 160) || (c =? 5760)
  || ((8192 <=? c) && (c <=? 8202))
  || (c =? 8232) || (c =? 8233) || (c =? 8239) || (c =? 8287) || (c =? 12288).

Definition parser (A : Type) : Type := list Z -> option (A * list Z).

(** [[lo-hi]]: one ASCII digit of the range. *)
Definition digit_in (lo hi : Z) : parser Z := fun s =>
  match s with
  | c :: rest =>
      if (48 + lo <=? c) && (c <=? 48 + hi) then Some (c - 48, rest) else None
  | [] => None
  end.

(** [\d]: one decimal digit. *)
Definition digit : parser Z := fun s =>
  match s with
  | c :: rest =>
      match digit_value c with
      | Some v => Some (v, rest)
      | None => None
      end
  | [] => None
  end.

(** Two digits in a row, read as a number. *)
Definition two (p q : parser Z) : parser Z := fun s =>
  match p s with
  | Some (a, r1) =>
      match q r1 with
      | Some (b, r2) => Some (10 * a + b, r2)
      | None => None
      end
  | None => None
  end.

(** [p|q]. *)
Definition alt {A : Type} (p q : parser A) : parser A := fun s =>
  match p s with
  | Some r => Some r
  | None => q s
  end.

Definition literal (c : Z) : parser unit := fun s =>
  match s with
  | c' :: rest => if c =? c' then Some (tt, rest) else None
  | [] => None
  end.

Definition then_ {A B : Type} (p : parser A) (k : A -> parser B) : parser B :=
  fun s => match p s with
           | Some (a, rest) => k a rest
           | None => None
           end.

Definition month_or_hour12 : parser Z :=
  alt (two (digit_in 1 1) (digit_in 0 2))
 (alt (two (digit_in 0 0) (digit_in 1 9))
      (digit_in 1 9)).

Definition day_of_month : parser Z :=
  alt (two (digit_in 3 3) (digit_in 0 1))
 (alt (two (digit_in 1 2) digit)
 (alt (two (digit_in 0 0) (digit_in 1 9))
 (alt (digit_in 1 9)
      (then_ (literal 32) (fun _ => digit_in 1 9))))).

Definition year4 : parser Z := fun s =>
  match two digit digit s with
  | Some (hi, r) =>
      match two digit digit r with
      | Some (lo, r') => Some (100 * hi + lo, r')
      | None => None
      end
  | None => None
  end.

Definition minute : parser Z :=
  alt (two (digit_in 0 5) digit) digit.

Definition second : parser Z :=
  alt (two (digit_in 6 6) (digit_in 0 1))
 (alt (two (digit_in 0 5) digit)
      digit).

Fixpoint skip_spaces (s : list Z) : list Z :=
  match s with
  | c :: rest => if is_space c then skip_spaces rest else s
  | [] => s
  end.

Definition spaces : parser unit := fun s =>
  match s with
  | c :: rest => if is_space c then Some (tt, skip_spaces rest) else None
  | [] => None
  end.

(** [%p]: [true] for PM.  Without regard to case, [a], [p] and [m] match
    their capitals and nothing else. *)
Definition am_pm : parser bool := fun s =>
  match s with
  | c1 :: c2 :: rest =>
      if (c2 =? 77) || (c2 =? 109) then
        if (c1 =? 65) || (c1 =? 97) then Some (false, rest)
        else if (c1 =? 80) || (c1 =? 112) then Some (true, rest)
        else None
      else None
  | _ => None
  end.

Definition fields : Type := Z * Z * Z * Z * Z * Z * bool.

(** The fields of a cell that matches the whole format. *)
Definition match_format (s : string) : option fields :=
  match
    then_ month_or_hour12 (fun mo =>
    then_ (literal 47) (fun _ =>
    then_ day_of_month (fun d =>
    then_ (literal 47) (fun _ =>
    then_ year4 (fun y =>
    then_ spaces (fun _ =>
    then_ month_or_hour12 (fun h =>
    then_ (literal 58) (fun _ =>
    then_ minute (fun mi =>
    then_ (literal 58) (fun _ =>
    then_ second (fun sec =>
    then_ spaces (fun _ =>
    then_ am_pm (fun pm rest =>
      Some ((mo, d, y, h, mi, sec, pm), rest)))))))))))))) (code_points s)
  with
  | Some (f, []) => Some f
  | _ => None
  end.

(** The 12-hour clock: 12 AM is hour 0, 12 PM is hour 12. *)
Definition hour24 (h : Z) (pm : bool) : Z :=
  if pm then (if h =? 12 then 12 else h + 12)
  else (if h =? 12 then 0 else h).

(** The timestamp of a matching cell.  A day the month does not have and
    an instant outside the [int64] nanosecond range are [ValueError]s; the
    seconds 60 and 61 count on into the next minute. *)
Definition strptime (s : string) : result Timestamp :=
  match match_format s with
  | None => Raise ValueError
  | Some (mo, d, y, h, mi, sec, pm) =>
      if d <=? Calendar.days_in_month y mo then
        let t := (Calendar.days_from_civil y mo d * 86400
                  + hour24 h pm * 3600 + mi * 60 + sec)
                 * Calendar.ns_per_second in
        if (- 2 ^ 63 <? t) && (t <? 2 ^ 63) then Ok t else Raise ValueError
      else Raise ValueError
  end.

(** The spellings of a missing timestamp. *)
Definition nat_strings : list string :=
  ["NaT"; "nat"; "NAT"; "nan"; "NaN"; "NAN"].

(** The conversion of one text cell: the empty text and the spellings of
    a missing timestamp give [NaT], anything else goes through the
    format. *)
Definition convert (s : string) : result (option Timestamp) :=
  if String.eqb s EmptyString || existsb (String.eqb s) nat_strings then Ok None
  else t <- strptime s ;; Ok (Some t).

End Strptime.

(** [pd.to_datetime(column, format=...)] on one cell: a missing cell
    becomes [NaT]; [convert] is the library's conversion of a text cell,
    [Strptime.convert] in the examples. *)
Definition to_datetime (convert : string -> result (option Timestamp))
  (c : cell) : result (option Timestamp) :=
  match c with
  | None => Ok None
  | Some s => convert s
  end.

(* ================================================================== *)
(** * The data                                                         *)
(* ================================================================== *)

(** One row of the CSV.  [T] is the type of the timestamp column: a text
    cell as read, a parsed instant (or [NaT]) after [load_data]. *)
Record Record_ (T : Type) : Type := mkRecord {
  transit_timestamp : T;
  station_complex : cell;
  borough : cell;
  payment_method : cell;
  fare_class_category : cell;
  ridership : Z;
  transfers : Z;
  latitude : float;
  longitude : float
}.

Arguments mkRecord {T}.
Arguments transit_timestamp {T}.
Arguments station_complex {T}.
Arguments borough {T}.
Arguments payment_method {T}.
Arguments fare_class_category {T}.
Arguments ridership {T}.
Arguments transfers {T}.
Arguments latitude {T}.
Arguments longitude {T}.

Definition RawRecord : Type := Record_ cell.
Definition RidershipRecord : Type := Record_ (option Timestamp).

(** One row of the station summary. *)
Record StationSummary : Type := mkSummary {
  ss_station_complex : string;
  ss_borough : string;
  total_ridership : Z;
  total_transfers : Z;
  ss_latitude : float;
  ss_longitude : float
}.

(* ================================================================== *)
(** * Loading and aggregation                                          *)
(* ================================================================== *)

Definition parse_row (convert : string -> result (option Timestamp))
  (row : nat * RawRecord) : result (nat * RidershipRecord) :=
  let r := snd row in
  t <- to_datetime convert (transit_timestamp r) ;;
  Ok (fst row,
      mkRecord t (station_complex r) (borough r) (payment_method r)
        (fare_class_category r) (ridership r) (transfers r)
        (latitude r) (longitude r)).

(** [load_data]: [read_csv] is the library call together with the file
    system it reads; it raises when the file cannot be opened.  [convert] is
    the library's conversion of a text cell of the timestamp column.  The
    cache decorator only memoises and is left out. *)
Definition load_data (convert : string -> result (option Timestamp))
  (read_csv : string -> result (frame RawRecord))
  (file_path : string) : result (frame RidershipRecord) :=
  df <- read_csv file_path ;;
  mapM (parse_row convert) df.

Definition station_key {T : Type} (r : Record_ T) : option (string * string) :=
  match station_complex r, borough r with
  | Some s, Some b => Some (s, b)
  | _, _ => None
  end.

Definition key_eqb : string * string -> string * string -> bool :=
  pair_eqb String.eqb String.eqb.

(** Keys are compared station first, then borough.  Strings are compared
    character by character; on UTF-8 text this is Python's order by code
    point. *)
Definition key_leb : string * string -> string * string -> bool :=
  pair_leb String.eqb String.leb String.leb.

Definition summary_row (g : (string * string) * list RidershipRecord)
  : StationSummary :=
  mkSummary (fst (fst g)) (snd (fst g))
    (I64.sum (map ridership (snd g)))
    (I64.sum (map transfers (snd g)))
    (F64.mean (map latitude (snd g)))
    (F64.mean (map longitude (snd g))).

(** [create_station_summary]. *)
Definition create_station_summary (df : frame RidershipRecord)
  : frame StationSummary :=
  range_index (map summary_row (groupby key_eqb key_leb station_key (values df))).

Definition summary_key (s : StationSummary) : string * string :=
  (ss_station_complex s, ss_borough s).

(* ================================================================== *)
(** * Start-up, sidebar and filter                                     *)
(* ================================================================== *)

Definition DATA_FILE : string :=
  "MTA_Subway_Hourly_Ridership__2020-2024_20250721.csv".

Definition OVERALL : cell := Some "Overall".

(** [borough_list]: the sentinel, then the distinct boroughs as they first
    appear in the data. *)
Definition borough_list (df : frame RidershipRecord) : list cell :=
  OVERALL :: unique cell_same (map borough (values df)).

(** The [else] branch of the filter block, for the two frames. *)
Definition filter_records (selected_borough : cell) (df : frame RidershipRecord)
  : frame RidershipRecord :=
  select (fun r => cell_eqb (borough r) selected_borough) df.

Definition filter_summaries (selected_borough : cell)
  (station_summary : frame StationSummary) : frame StationSummary :=
  select (fun s => cell_eqb (Some (ss_borough s)) selected_borough) station_summary.

Record View : Type := mkView {
  main_df : frame RidershipRecord;
  station_df : frame StationSummary;
  title_suffix : string;
  zoom_level : float
}.

(** The filter block. *)
Definition filter_view (selected_borough : cell) (df : frame RidershipRecord)
  (station_summary : frame StationSummary) : View :=
  if cell_eqb selected_borough OVERALL then
    mkView df station_summary "in NYC" 9.5%float
  else
    mkView (filter_records selected_borough df)
           (filter_summaries selected_borough station_summary)
           ("in " ++ cell_str selected_borough) 11%float.

(* ================================================================== *)
(** * Presentation blocks                                              *)
(* ================================================================== *)

(** [line_data_to_plot]: total ridership per timestamp, in time order. *)
Definition line_data_to_plot (main : frame RidershipRecord) : frame (Timestamp * Z) :=
  range_index
    (map (fun g => (fst g, I64.sum (map ridership (snd g))))
         (groupby Z.eqb Z.leb transit_timestamp (values main))).

(** What a metric card shows; the number formatting is not modelled.  A
    date stands for its ['%b %d, %Y'] rendering. *)
Inductive shown : Type :=
| Int (z : Z)
| Float (f : float)
| Text (s : string)
| Date (y m d : Z).

Record Metric : Type := mkMetric {
  metric_label : string;
  metric_value : shown;
  metric_delta : option shown
}.

Definition strftime_date (t : Timestamp) : shown :=
  let '(y, m, d) := Calendar.civil_from_days (Calendar.date t) in Date y m d.

(** The key-metrics column. *)
Definition key_metrics (v : View) (line_data : frame (Timestamp * Z))
  : result (list Metric) :=
  let total_ridership_metric := I64.sum (map ridership (values (main_df v))) in
  let avg_ridership_metric := F64.mean_int (map ridership (values (main_df v))) in
  day_cards <-
    (if negb (empty line_data) then
       i <- idxmax snd line_data ;;
       busiest_day_data <- loc line_data i ;;
       Ok [mkMetric "Busiest Day" (strftime_date (fst busiest_day_data))
             (Some (Int (snd busiest_day_data)))]
     else Ok []) ;;
  station_cards <-
    (if negb (empty (station_df v)) then
       i <- idxmax total_ridership (station_df v) ;;
       busiest_station_data <- loc (station_df v) i ;;
       Ok [mkMetric "Busiest Station"
             (Text (ss_station_complex busiest_station_data))
             (Some (Int (total_ridership busiest_station_data)));
           mkMetric "Total Transfers"
             (Int (I64.sum (map total_transfers (values (station_df v))))) None]
     else Ok []) ;;
  Ok (mkMetric "Total Ridership" (Int total_ridership_metric) None
      :: mkMetric "Avg. Ridership / Hour" (Float avg_ridership_metric) None
      :: day_cards ++ station_cards).

(** The two top-10 bar charts: the data handed to the chart. *)
Definition top_10_stations (v : View) : frame StationSummary :=
  nlargest total_ridership 10 (station_df v).

Definition top_10_transfers (v : View) : frame StationSummary :=
  nlargest total_transfers 10 (station_df v).

(** A pivoted table: row labels, column labels, and the cells row by row;
    [None] is a missing cell. *)
Record Pivot : Type := mkPivot {
  pivot_index : list Z;
  pivot_columns : list string;
  pivot_cells : list (list (option float))
}.

Definition weekly_key (r : RidershipRecord) : option (string * Z) :=
  match transit_timestamp r with
  | Some t => Some (Calendar.day_name t, Calendar.hour t)
  | None => None
  end.

(** [heatmap_data]: mean ridership per (day of week, hour). *)
Definition heatmap_data (main : frame RidershipRecord) : list ((string * Z) * float) :=
  map (fun g => (fst g, F64.group_mean_int (map ridership (snd g))))
      (groupby (pair_eqb String.eqb Z.eqb) (pair_leb String.eqb String.leb Z.leb)
               weekly_key (values main)).

Definition lookup_cell (data : list ((string * Z) * float)) (d : string) (h : Z)
  : option float :=
  option_map snd
    (find (fun e => pair_eqb String.eqb Z.eqb (fst e) (d, h)) data).

(** [pivot(index='hour', columns='day_of_week', values='ridership')]. *)
Definition pivot (data : list ((string * Z) * float)) : Pivot :=
  let index := sort Z.leb (unique Z.eqb (map (fun e => snd (fst e)) data)) in
  let columns := sort String.leb (unique String.eqb (map (fun e => fst (fst e)) data)) in
  mkPivot index columns
    (map (fun h => map (fun d => lookup_cell data d h) columns) index).

(** [reindex(columns=...)]: a column the table lacks is all missing. *)
Definition reindex_columns (columns : list string) (p : Pivot) : Pivot :=
  mkPivot (pivot_index p) columns
    (map (fun row =>
            map (fun d => match position String.eqb d (pivot_columns p) with
                          | Some j => nth j row None
                          | None => None
                          end) columns)
         (pivot_cells p)).

Definition day_order : list string :=
  ["Monday"; "Tuesday"; "Wednesday"; "Thursday"; "Friday"; "Saturday"; "Sunday"].

(** [heatmap_pivot], the table drawn as the weekly heat map. *)
Definition heatmap_pivot (main : frame RidershipRecord) : Pivot :=
  reindex_columns day_order (pivot (heatmap_data main)).

(** The cell of a table at a row and a column label, if the table has it. *)
Definition pivot_at (p : Pivot) (h : Z) (d : string) : option float :=
  match position Z.eqb h (pivot_index p), position String.eqb d (pivot_columns p) with
  | Some i, Some j => nth j (nth i (pivot_cells p) []) None
  | _, _ => None
  end.


(** [borough_ridership], the data of the pie under the Overall selection:
    total ridership of the station summary per borough. *)
Definition borough_ridership (stations : frame StationSummary)
  : frame (string * Z) :=
  range_index
    (map (fun g => (fst g, I64.sum (map total_ridership (snd g))))
         (groupby String.eqb String.leb (fun s => Some (ss_borough s))
                  (values stations))).

(** [top_stations_in_borough], the data of the pie under a borough. *)
Definition top_stations_in_borough (v : View) : frame StationSummary :=
  nlargest total_ridership 5 (station_df v).

Definition payment_key (r : RidershipRecord) : option (Z * string) :=
  match transit_timestamp r, payment_method r with
  | Some t, Some m => Some (Calendar.date t, m)
  | _, _ => None
  end.

(** [payment_trends]: ridership per calendar date and payment method. *)
Definition payment_trends (main : frame RidershipRecord)
  : frame ((Z * string) * Z) :=
  range_index
    (map (fun g => (fst g, I64.sum (map ridership (snd g))))
         (groupby (pair_eqb Z.eqb String.eqb) (pair_leb Z.eqb Z.leb String.leb)
                  payment_key (values main))).

Definition fare_key (r : RidershipRecord) : option (string * string) :=
  match payment_method r, fare_class_category r with
  | Some m, Some c => Some (m, c)
  | _, _ => None
  end.

(** [fare_data]: ridership per payment method and fare class. *)
Definition fare_data (main : frame RidershipRecord)
  : frame ((string * string) * Z) :=
  range_index
    (map (fun g => (fst g, I64.sum (map ridership (snd g))))
         (groupby key_eqb key_leb fare_key (values main))).

(** A chart of the page with the data handed to it, by the call that
    builds it. *)
Inductive chart : Type :=
| px_line (data : frame (Timestamp * Z))
| px_pie_boroughs (data : frame (string * Z))
| px_pie_stations (data : frame StationSummary)
| px_box (data : frame RidershipRecord)
| px_bar_ridership (data : frame StationSummary)
| px_scatter_map (data : frame StationSummary) (zoom : float)
| px_area (data : frame ((Z * string) * Z))
| px_imshow (data : Pivot)
| px_treemap (data : frame ((string * string) * Z))
| px_bar_transfers (data : frame StationSummary)
| px_scatter (data : frame StationSummary)
| px_sunburst (data : frame StationSummary).

(** [DataFrame.nlargest] refuses a column of dtype [object] with a
    [TypeError].  [read_csv] gives a column of integer cells the dtype
    [int64] and a column without cells the dtype [object]; sums, groupings
    and selections keep the dtype.  So the totals of the station summary
    are numbers when the loaded frame has a row, and objects when the file
    has a header and nothing else. *)
Definition require_numeric {A : Type} (df : frame RidershipRecord) (x : A)
  : result A :=
  if empty df then Raise TypeError else Ok x.

(** The rendered page: the data behind the embedded blocks. *)
Record Page : Type := mkPage {
  page_view : View;
  page_line : frame (Timestamp * Z);
  page_metrics : list Metric;
  page_top_stations : frame StationSummary;
  page_heatmap : Pivot;
  page_top_transfers : frame StationSummary;
  page_raw_sample : frame RidershipRecord
}.

(** The script from the filter block to the raw-data expander, block by
    block in the order of the source.  [draw] builds and shows one chart:
    it returns, or raises what the plotting library raises; the first
    exception ends the run. *)
Definition render (draw : chart -> result unit)
  (df : frame RidershipRecord) (station_summary : frame StationSummary)
  (selected_borough : cell) : result Page :=
  let v := filter_view selected_borough df station_summary in
  let line := line_data_to_plot (main_df v) in
  do draw (px_line line) ;;
  do (if cell_eqb selected_borough OVERALL then
        draw (px_pie_boroughs (borough_ridership (station_df v)))
      else
        top_5 <- require_numeric df (top_stations_in_borough v) ;;
        draw (px_pie_stations top_5)) ;;
  do draw (px_box (main_df v)) ;;
  metrics <- key_metrics v line ;;
  top_10 <- require_numeric df (top_10_stations v) ;;
  do draw (px_bar_ridership (sort_values total_ridership top_10)) ;;
  do draw (px_scatter_map (station_df v) (zoom_level v)) ;;
  do draw (px_area (payment_trends (main_df v))) ;;
  do draw (px_imshow (heatmap_pivot (main_df v))) ;;
  do draw (px_treemap (fare_data (main_df v))) ;;
  top_10_t <- require_numeric df (top_10_transfers v) ;;
  do draw (px_bar_transfers (sort_values total_transfers top_10_t)) ;;
  do draw (px_scatter (station_df v)) ;;
  do draw (px_sunburst (station_df v)) ;;
  Ok (mkPage v line metrics
        (sort_values total_ridership top_10)
        (heatmap_pivot (main_df v))
        (sort_values total_transfers top_10_t)
        (head 1000 df)).

Inductive element : Type :=
| st_error (message : string)
| st_info (message : string).

(** How a run of the script ends: stopped by [st.stop()] after showing some
    elements, ended by an exception nothing catches, or rendered. *)
Inductive Outcome : Type :=
| Stopped (elements : list element)
| Uncaught (e : exn)
| Rendered (p : Page).

(** The library calls whose outcome decides how a run goes on: the
    conversion of a text cell of the timestamp column, and the drawing of a
    chart. *)
Record Libraries : Type := mkLibraries {
  lib_convert : string -> result (option Timestamp);
  lib_draw : chart -> result unit
}.

(** The whole script.  [choice] is the position the user picked in the
    sidebar select box (0, the sentinel, by default). *)
Definition app (lib : Libraries)
  (read_csv : string -> result (frame RawRecord)) (choice : nat) : Outcome :=
  match (df <- load_data (lib_convert lib) read_csv DATA_FILE ;;
         Ok (df, create_station_summary df)) with
  | Raise FileNotFoundError =>
      Stopped [st_error "Error: The specified data file was not found.";
               st_info "Please make sure the CSV file is in the same directory as your Streamlit app."]
  | Raise e => Uncaught e
  | Ok (df, station_summary) =>
      let selected_borough := nth choice (borough_list df) OVERALL in
      match render (lib_draw lib) df station_summary selected_borough with
      | Ok p => Rendered p
      | Raise e => Uncaught e
      end
  end.

(** The plotting library as far as the examples need it: a marker cannot
    have a negative size, so the two charts that size their markers by
    [total_ridership] raise [ValueError] on a negative total; every other
    chart of the examples is drawn. *)
Definition plotly_draw (c : chart) : result unit :=
  match c with
  | px_scatter_map data _ | px_scatter data =>
      if existsb (fun row => total_ridership (snd row) <? 0) data
      then Raise ValueError else Ok tt
  | _ => Ok tt
  end.

(** The libraries of the examples. *)
Definition pandas_plotly : Libraries :=
  mkLibraries Strptime.convert plotly_draw.

(* ================================================================== *)
(** * Sample data used by the examples                                 *)
(* ================================================================== *)

Definition raw_row (ts station boro : string) (riders xfers : Z) : RawRecord :=
  mkRecord (Some ts) (Some station) (Some boro) (Some "omny")
    (Some "Full Fare") riders xfers 40.75%float 73.5%float.

(** A reader that finds [rows] under the expected name and nothing else. *)
Definition csv_with (rows : list RawRecord) (path : string)
  : result (frame RawRecord) :=
  if String.eqb path DATA_FILE then Ok (range_index rows)
  else Raise FileNotFoundError.

Definition no_file (path : string) : result (frame RawRecord) :=
  Raise FileNotFoundError.

(** The three-row data set of the end-to-end scenario. *)
Definition three_rows : list RawRecord :=
  [raw_row "01/01/2024 08:00:00 AM" "StationA" "Queens" 5 1;
   raw_row "01/01/2024 09:00:00 AM" "StationA" "Queens" 7 2;
   raw_row "01/01/2024 08:00:00 AM" "StationB" "Bronx" 3 0].

(** Two groups whose first appearance is not their key order. *)
Definition b_before_a : list RawRecord :=
  [raw_row "01/01/2024 08:00:00 AM" "StationB" "Bronx" 3 0;
   raw_row "01/01/2024 08:00:00 AM" "StationA" "Queens" 5 1].

(** A timestamp column written in another format. *)
Definition iso_rows : list RawRecord :=
  [raw_row "2024-01-01 08:00:00" "StationA" "Queens" 5 1].

(** One day with two moderate hours, the next day with one busier hour. *)
Definition two_days : list RawRecord :=
  [raw_row "01/01/2024 08:00:00 AM" "StationA" "Queens" 10 1;
   raw_row "01/01/2024 09:00:00 AM" "StationA" "Queens" 10 2;
   raw_row "01/02/2024 08:00:00 AM" "StationA" "Queens" 15 0].

(** Two readings on a Monday at nine. *)
Definition monday_nine : list RawRecord :=
  [raw_row "01/01/2024 09:00:00 AM" "StationA" "Queens" 10 0;
   raw_row "01/08/2024 09:30:00 AM" "StationB" "Bronx" 20 0].

(** A row whose borough field is blank in the file. *)
Definition blank_borough : list RawRecord :=
  [raw_row "01/01/2024 08:00:00 AM" "StationA" "Queens" 5 1;
   mkRecord (Some "01/01/2024 08:00:00 AM") (Some "StationC") None
     (Some "omny") (Some "Full Fare") 4 0 40.75%float 73.5%float].


(** The frame [load_data] returns for a list of rows ([[]] if it raises). *)
Definition loaded (rows : list RawRecord) : frame RidershipRecord :=
  match load_data Strptime.convert (csv_with rows) DATA_FILE with
  | Ok df => df
  | Raise _ => []
  end.

(** The keys of the input in order of first appearance: the row order the
    specification describes for the summary. *)
Definition first_appearance_keys (df : frame RidershipRecord)
  : list (string * string) :=
  unique key_eqb (present_keys station_key (values df)).

(** The specification's reading of the "Busiest Day" card: ridership is
    totalled per calendar day and the day with the largest total is shown
    with that total. *)
Definition daily_totals (main : frame RidershipRecord) : frame (Z * Z) :=
  range_index
    (map (fun g => (fst g, I64.sum (map ridership (snd g))))
         (groupby Z.eqb Z.leb
                  (fun r => option_map Calendar.date (transit_timestamp r))
                  (values main))).

Definition busiest_calendar_day (main : frame RidershipRecord)
  : result (shown * Z) :=
  i <- idxmax snd (daily_totals main) ;;
  row <- loc (daily_totals main) i ;;
  Ok (let '(y, m, d) := Calendar.civil_from_days (fst row) in Date y m d,
      snd row).

(** Rows of a record frame that all carry a station and a borough. *)
Definition valid_records (df : frame RidershipRecord) : Prop :=
  Forall (fun r => station_complex r <> None /\ borough r <> None) (values df).

(** A list obtained from another by dropping elements. *)
Inductive Subsequence {A : Type} : list A -> list A -> Prop :=
| Subsequence_nil : Subsequence [] []
| Subsequence_keep x l1 l2 : Subsequence l1 l2 -> Subsequence (x :: l1) (x :: l2)
| Subsequence_drop x l1 l2 : Subsequence l1 l2 -> Subsequence l1 (x :: l2).

(** A boolean comparison read as a relation. *)
Definition holds {K : Type} (leb : K -> K -> bool) (x y : K) : Prop :=
  leb x y = true.

(** The strict lexicographic order on (station, borough) keys. *)
Definition key_lt (a b : string * string) : Prop :=
  String.ltb (fst a) (fst b) = true
  \/ (fst a = fst b /\ String.ltb (snd a) (snd b) = true).

(** The exception of the first cell of the timestamp column that cannot be
    converted, if there is one. *)
Fixpoint conversion_error (convert : string -> result (option Timestamp))
  (raw : frame RawRecord) : option exn :=
  match raw with
  | [] => None
  | row :: rest =>
      match to_datetime convert (transit_timestamp (snd row)) with
      | Raise e => Some e
      | Ok _ => conversion_error convert rest
      end
  end.

(** What the [except FileNotFoundError] branch shows before stopping. *)
Definition file_not_found_elements : list element :=
  [st_error "Error: The specified data file was not found.";
   st_info "Please make sure the CSV file is in the same directory as your Streamlit app."].

(** The "Busiest Day" card for a row of the hourly series, and the
    "Busiest Station" card for a row of the station summary. *)
Definition busiest_day_card (a : Timestamp * Z) : Metric :=
  mkMetric "Busiest Day" (strftime_date (fst a)) (Some (Int (snd a))).

Definition busiest_station_card (a : StationSummary) : Metric :=
  mkMetric "Busiest Station" (Text (ss_station_complex a))
    (Some (Int (total_ridership a))).

(** The labels of the metric cards, given which of the two guards pass. *)
Definition card_labels (line_empty station_empty : bool) : list string :=
  ["Total Ridership"; "Avg. Ridership / Hour"]
  ++ (if line_empty then [] else ["Busiest Day"])
  ++ (if station_empty then [] else ["Busiest Station"; "Total Transfers"]).

(* ================================================================== *)
(** * Notions used by the further properties                         *)
(* ================================================================== *)

(** Whether a row has a key, for a key function. *)
Definition keyed {K R : Type} (key : R -> option K) (r : R) : bool :=
  match key r with
  | Some _ => true
  | None => false
  end.

(** The records of a (day of week, hour) cell of the weekly pattern. *)
Definition records_at (d : string) (h : Z) (main : frame RidershipRecord)
  : list RidershipRecord :=
  filter (in_group (pair_eqb String.eqb Z.eqb) weekly_key (d, h)) (values main).

(** [v] is the total of [k] in a grouped sum of the column [f]: the rows
    split into those that carry the key [k], of which there is at least
    one, and the others, and [v] is the sum of [f] over the former. *)
Definition total_of {K R : Type} (key : R -> option K) (f : R -> Z)
  (rows : list R) (k : K) (v : Z) : Prop :=
  exists g rest,
    Permutation (g ++ rest) rows
    /\ Forall (fun r => key r = Some k) g
    /\ Forall (fun r => key r <> Some k) rest
    /\ g <> []
    /\ v = I64.sum (map f g).

(** [a] first appears before [b] in [l]: [l] reaches an [a] before it
    reaches any [b]. *)
Definition first_before {A : Type} (a b : A) (l : list A) : Prop :=
  exists pre post, l = (pre ++ a :: post)%list /\ ~ In a pre /\ ~ In b pre.

(** [top] holds the [n] rows of [df] with the largest [col]: as many rows as
    [df] has, up to [n]; largest first; and no row left out exceeds a row
    taken. *)
Definition takes_largest {A : Type} (col : A -> Z) (n : nat)
  (df top : frame A) : Prop :=
  List.length top = Nat.min n (List.length df)
  /\ StronglySorted (fun x y => col (snd y) <= col (snd x)) top
  /\ exists rest,
      Permutation (top ++ rest) df
      /\ forall x y, In x top -> In y rest -> col (snd y) <= col (snd x).

(* ================================================================== *)
(** * Arithmetic of wrapped sums                                       *)
(* ================================================================== *)

Lemma wrap_add_l (a b : Z) : I64.wrap (I64.wrap a + b) = I64.wrap (a + b).
Proof.
  unfold I64.wrap.
  replace ((a + 2 ^ 63) mod 2 ^ 64 - 2 ^ 63 + b + 2 ^ 63)
    with ((a + 2 ^ 63) mod 2 ^ 64 + b) by ring.
  rewrite Zplus_mod_idemp_l.
  replace (a + 2 ^ 63 + b) with (a + b + 2 ^ 63) by ring.
  reflexivity.
Qed.

Lemma wrap_add_r (a b : Z) : I64.wrap (a + I64.wrap b) = I64.wrap (a + b).
Proof.
  rewrite (Z.add_comm a (I64.wrap b)), wrap_add_l, Z.add_comm.
  reflexivity.
Qed.

Lemma wrap_in_range (a : Z) : I64.in_range (I64.wrap a).
Proof.
  unfold I64.in_range, I64.wrap.
  pose proof (Z.mod_pos_bound (a + 2 ^ 63) (2 ^ 64) eq_refl) as H.
  change (2 ^ 64) with (2 * 2 ^ 63) in *.
  lia.
Qed.

Lemma wrap_small (a : Z) : I64.in_range a -> I64.wrap a = a.
Proof.
  unfold I64.in_range, I64.wrap. intros H.
  rewrite Z.mod_small.
  - ring.
  - change (2 ^ 64) with (2 * 2 ^ 63). lia.
Qed.

Lemma fold_add_wrap (l : list Z) (acc : Z) :
  fold_left I64.add l (I64.wrap acc) = I64.wrap (acc + zsum l).
Proof.
  revert acc. induction l as [|x l IH]; intros acc; simpl.
  - f_equal. ring.
  - unfold I64.add at 2. rewrite wrap_add_l, IH. f_equal. ring.
Qed.

(** The wrapped sum is the exact sum reduced to 64 bits. *)
Lemma sum_wrap (l : list Z) : I64.sum l = I64.wrap (zsum l).
Proof.
  unfold I64.sum. change 0 with (I64.wrap 0) at 1.
  rewrite fold_add_wrap. reflexivity.
Qed.

(** While the exact sum fits, the wrapped sum is the exact sum. *)
Lemma sum_exact (l : list Z) : I64.in_range (zsum l) -> I64.sum l = zsum l.
Proof. intros H. rewrite sum_wrap. apply wrap_small, H. Qed.

Lemma sum_in_range (l : list Z) : I64.in_range (I64.sum l).
Proof. rewrite sum_wrap. apply wrap_in_range. Qed.

Lemma zsum_perm (l1 l2 : list Z) : Permutation l1 l2 -> zsum l1 = zsum l2.
Proof.
  induction 1; simpl; lia.
Qed.

Lemma wrap_zsum_map_wrap (l : list Z) :
  I64.wrap (zsum (map I64.wrap l)) = I64.wrap (zsum l).
Proof.
  induction l as [|x l IH]; simpl; [reflexivity|].
  rewrite <- wrap_add_r, IH, wrap_add_r, wrap_add_l. reflexivity.
Qed.

(* ================================================================== *)
(** * Distinct values and sorting                                      *)
(* ================================================================== *)

Section UniqueFacts.

Context {K : Type}.
Variable eqb : K -> K -> bool.
Hypothesis eqb_eq : forall x y, eqb x y = true <-> x = y.

Lemma eqb_refl_true (x : K) : eqb x x = true.
Proof. apply eqb_eq. reflexivity. Qed.

Lemma unique_In (x : K) (l : list K) : In x (unique eqb l) <-> In x l.
Proof.
  induction l as [|a l IH]; simpl; [tauto|].
  rewrite filter_In, IH.
  destruct (eqb x a) eqn:E.
  - apply eqb_eq in E. subst. simpl. intuition congruence.
  - simpl. split.
    + intros [H | [H _]]; auto.
    + intros [H | H]; auto.
Qed.

Lemma unique_NoDup (l : list K) : NoDup (unique eqb l).
Proof.
  induction l as [|a l IH]; simpl; constructor.
  - rewrite filter_In. intros [_ H].
    rewrite eqb_refl_true in H. discriminate.
  - apply NoDup_filter. exact IH.
Qed.

End UniqueFacts.

Section SortFacts.

Context {K : Type}.
Variable leb : K -> K -> bool.

Lemma insert_perm (x : K) (l : list K) : Permutation (insert leb x l) (x :: l).
Proof.
  induction l as [|y l IH]; simpl; [reflexivity|].
  destruct (leb x y); [reflexivity|].
  rewrite IH. apply perm_swap.
Qed.

Lemma sort_perm (l : list K) : Permutation (sort leb l) l.
Proof.
  induction l as [|x l IH]; simpl; [reflexivity|].
  rewrite insert_perm. apply perm_skip. exact IH.
Qed.

Lemma sort_In (x : K) (l : list K) : In x (sort leb l) <-> In x l.
Proof.
  split; apply Permutation_in; [|symmetry]; apply sort_perm.
Qed.

Lemma sort_NoDup (l : list K) : NoDup l -> NoDup (sort leb l).
Proof.
  apply Permutation_NoDup. symmetry. apply sort_perm.
Qed.

Lemma sort_length (l : list K) : List.length (sort leb l) = List.length l.
Proof. apply Permutation_length, sort_perm. Qed.

Hypothesis leb_total : forall x y, leb x y = true \/ leb y x = true.
Hypothesis leb_trans : forall x y z,
    leb x y = true -> leb y z = true -> leb x z = true.

Lemma insert_sorted (x : K) (l : list K) :
  StronglySorted (holds leb) l -> StronglySorted (holds leb) (insert leb x l).
Proof.
  induction 1 as [|y l Hs IH Hy]; simpl.
  - repeat constructor.
  - destruct (leb x y) eqn:E.
    + constructor; [constructor; assumption|].
      constructor; [exact E|].
      rewrite Forall_forall in Hy |- *. intros z Hz.
      eapply leb_trans; [exact E | apply Hy, Hz].
    + constructor; [exact IH|].
      rewrite Forall_forall in Hy |- *. intros z Hz.
      apply (Permutation_in _ (insert_perm x l)) in Hz.
      destruct Hz as [<- | Hz]; [|apply Hy, Hz].
      destruct (leb_total x y) as [H | H]; [congruence | exact H].
Qed.

Lemma sort_sorted (l : list K) : StronglySorted (holds leb) (sort leb l).
Proof.
  induction l as [|x l IH]; simpl; [constructor | apply insert_sorted, IH].
Qed.

End SortFacts.

(** A sorted list without repetition is strictly sorted. *)
Lemma sorted_nodup_strict {K : Type} (R : K -> K -> Prop) (l : list K) :
  StronglySorted R l -> NoDup l ->
  StronglySorted (fun x y => R x y /\ x <> y) l.
Proof.
  induction 1 as [|x l Hs IH Hx]; intros Hnd; constructor.
  - apply IH. inversion Hnd; assumption.
  - inversion Hnd as [|? ? Hnotin _]; subst.
    rewrite Forall_forall in Hx |- *. intros y Hy. split; [apply Hx, Hy|].
    intros ->. contradiction.
Qed.

(* ================================================================== *)
(** * The order on strings and on keys                                 *)
(* ================================================================== *)

Lemma ascii_compare_refl (c : ascii) : Ascii.compare c c = Eq.
Proof. unfold Ascii.compare. apply N.compare_refl. Qed.

Lemma string_compare_refl (s : string) : String.compare s s = Eq.
Proof.
  induction s as [|c s IH]; simpl; [reflexivity|].
  rewrite ascii_compare_refl. exact IH.
Qed.

Lemma string_compare_lt_trans (a b c : string) :
  String.compare a b = Lt -> String.compare b c = Lt -> String.compare a c = Lt.
Proof.
  revert b c. induction a as [|x a IH]; intros [|y b] [|z c]; simpl;
    try discriminate; try reflexivity.
  destruct (Ascii.compare x y) eqn:Exy; try discriminate;
    destruct (Ascii.compare y z) eqn:Eyz; try discriminate; intros Hab Hbc.
  - apply Ascii.compare_eq_iff in Exy, Eyz. subst.
    rewrite ascii_compare_refl. eapply IH; eassumption.
  - apply Ascii.compare_eq_iff in Exy. subst. rewrite Eyz. reflexivity.
  - apply Ascii.compare_eq_iff in Eyz. subst. rewrite Exy. reflexivity.
  - unfold Ascii.compare in *. rewrite N.compare_lt_iff in *.
    assert (H : (N_of_ascii x < N_of_ascii z)%N) by lia.
    apply N.compare_lt_iff in H. rewrite H. reflexivity.
Qed.

Lemma string_leb_cases (a b : string) :
  String.leb a b = true <-> a = b \/ String.compare a b = Lt.
Proof.
  unfold String.leb. split.
  - destruct (String.compare a b) eqn:E; intros H; try discriminate.
    + left. apply String.compare_eq_iff. exact E.
    + right. reflexivity.
  - intros [-> | ->]; [rewrite string_compare_refl|]; reflexivity.
Qed.

Lemma string_leb_trans (a b c : string) :
  String.leb a b = true -> String.leb b c = true -> String.leb a c = true.
Proof.
  rewrite !string_leb_cases. intros [-> | Hab] [-> | Hbc]; auto.
  right. eapply string_compare_lt_trans; eassumption.
Qed.

Lemma string_leb_neq_ltb (a b : string) :
  String.leb a b = true -> a <> b -> String.ltb a b = true.
Proof.
  rewrite string_leb_cases. unfold String.ltb. intros [-> | ->] Hne.
  - contradiction.
  - reflexivity.
Qed.

Lemma key_eqb_eq (a b : string * string) : key_eqb a b = true <-> a = b.
Proof.
  destruct a as [a1 a2], b as [b1 b2]. unfold key_eqb, pair_eqb. simpl.
  rewrite andb_true_iff, !String.eqb_eq. split.
  - intros [-> ->]. reflexivity.
  - intros H. inversion H. auto.
Qed.

Lemma key_leb_total (a b : string * string) :
  key_leb a b = true \/ key_leb b a = true.
Proof.
  destruct a as [a1 a2], b as [b1 b2]. unfold key_leb, pair_leb. simpl.
  rewrite (String.eqb_sym b1 a1).
  destruct (String.eqb a1 b1); apply String.leb_total.
Qed.

Lemma key_leb_trans (a b c : string * string) :
  key_leb a b = true -> key_leb b c = true -> key_leb a c = true.
Proof.
  destruct a as [a1 a2], b as [b1 b2], c as [c1 c2].
  unfold key_leb, pair_leb. simpl.
  destruct (String.eqb_spec a1 b1) as [-> | Hab];
    destruct (String.eqb_spec b1 c1) as [-> | Hbc]; intros H1 H2.
  - eapply string_leb_trans; eassumption.
  - exact H2.
  - destruct (String.eqb_spec a1 c1); [contradiction | exact H1].
  - destruct (String.eqb_spec a1 c1) as [-> | Hac].
    + exfalso. apply Hab. apply String.leb_antisym; assumption.
    + eapply string_leb_trans; eassumption.
Qed.

Lemma key_leb_neq_lt (a b : string * string) :
  key_leb a b = true -> a <> b -> key_lt a b.
Proof.
  destruct a as [a1 a2], b as [b1 b2]. unfold key_leb, pair_leb, key_lt. simpl.
  destruct (String.eqb_spec a1 b1) as [-> | Hne]; intros H Hab.
  - right. split; [reflexivity|].
    apply string_leb_neq_ltb; [exact H | congruence].
  - left. apply string_leb_neq_ltb; assumption.
Qed.

(* ================================================================== *)
(** * Frames                                                           *)
(* ================================================================== *)

Lemma values_combine_seq {A : Type} (l : list A) (n : nat) :
  map snd (combine (seq n (List.length l)) l) = l.
Proof.
  revert n. induction l as [|x l IH]; intros n; simpl; [reflexivity|].
  rewrite IH. reflexivity.
Qed.

Lemma values_range_index {A : Type} (l : list A) : values (range_index l) = l.
Proof. apply values_combine_seq. Qed.

Lemma filter_idem {A : Type} (p : A -> bool) (l : list A) :
  filter p (filter p l) = filter p l.
Proof.
  induction l as [|x l IH]; simpl; [reflexivity|].
  destruct (p x) eqn:E; simpl; [rewrite E, IH|]; auto.
Qed.

Lemma filter_subsequence {A : Type} (p : A -> bool) (l : list A) :
  Subsequence (filter p l) l.
Proof.
  induction l as [|x l IH]; simpl; [constructor|].
  destruct (p x); constructor; exact IH.
Qed.

(* ================================================================== *)
(** * Grouping                                                         *)
(* ================================================================== *)

Section GroupByFacts.

Context {K R : Type}.
Variable eqb : K -> K -> bool.
Variable leb : K -> K -> bool.
Variable key : R -> option K.
Hypothesis eqb_eq : forall x y, eqb x y = true <-> x = y.

Lemma present_keys_In (k : K) (rows : list R) :
  In k (present_keys key rows) <-> exists r, In r rows /\ key r = Some k.
Proof.
  unfold present_keys. rewrite in_flat_map. split.
  - intros [r [Hr Hk]]. exists r. split; [exact Hr|].
    destruct (key r); simpl in Hk; [|contradiction].
    destruct Hk as [-> | []]. reflexivity.
  - intros [r [Hr Hk]]. exists r. split; [exact Hr|].
    rewrite Hk. left. reflexivity.
Qed.

Lemma group_keys_In (k : K) (rows : list R) :
  In k (group_keys eqb leb key rows) <-> exists r, In r rows /\ key r = Some k.
Proof.
  unfold group_keys.
  rewrite sort_In, (unique_In eqb eqb_eq). apply present_keys_In.
Qed.

Lemma group_keys_NoDup (rows : list R) : NoDup (group_keys eqb leb key rows).
Proof. apply sort_NoDup, unique_NoDup, eqb_eq. Qed.

Lemma groupby_keys (rows : list R) :
  map fst (groupby eqb leb key rows) = group_keys eqb leb key rows.
Proof.
  unfold groupby. rewrite map_map. simpl. apply map_id.
Qed.

(** A group is never empty, and its rows all carry the group's key. *)
Lemma groupby_rows (k : K) (rows g : list R) :
  In (k, g) (groupby eqb leb key rows) ->
  g <> [] /\ Forall (fun r => In r rows /\ key r = Some k) g.
Proof.
  unfold groupby. rewrite in_map_iff. intros [k' [E Hk]].
  inversion E; subst k' g; clear E.
  apply group_keys_In in Hk. destruct Hk as [r [Hr Hkey]]. split.
  - intros Hnil.
    assert (Hin : In r (filter (in_group eqb key k) rows)).
    { apply filter_In. split; [exact Hr|].
      unfold in_group. rewrite Hkey. apply eqb_eq. reflexivity. }
    rewrite Hnil in Hin. exact Hin.
  - apply Forall_forall. intros x Hx. apply filter_In in Hx.
    destruct Hx as [Hx Hg]. split; [exact Hx|].
    unfold in_group in Hg. destruct (key x) as [k'|]; [|discriminate].
    apply eqb_eq in Hg. congruence.
Qed.

Lemma zsum_indicator (k0 : K) (c : Z) (ks : list K) :
  NoDup ks -> In k0 ks ->
  zsum (map (fun k => if eqb k0 k then c else 0) ks) = c.
Proof.
  induction 1 as [|k ks Hnotin Hnd IH]; intros Hin; [contradiction|].
  simpl. destruct (eqb k0 k) eqn:E.
  - apply eqb_eq in E. subst k0.
    assert (Hz : zsum (map (fun k' => if eqb k k' then c else 0) ks) = 0).
    { clear IH Hin Hnd. induction ks as [|k' ks IH]; simpl; [reflexivity|].
      destruct (eqb k k') eqn:E.
      - apply eqb_eq in E. subst. exfalso. apply Hnotin. left. reflexivity.
      - rewrite IH; [reflexivity|]. intros H. apply Hnotin. right. exact H. }
    rewrite Hz. ring.
  - destruct Hin as [-> | Hin].
    + rewrite (eqb_refl_true eqb eqb_eq) in E. discriminate.
    + rewrite IH by exact Hin. ring.
Qed.

Lemma zsum_map_add {A : Type} (f g : A -> Z) (l : list A) :
  zsum (map (fun x => f x + g x) l) = zsum (map f l) + zsum (map g l).
Proof.
  induction l as [|x l IH]; simpl; [reflexivity | rewrite IH; ring].
Qed.

(** Summing a column group by group over a set of keys that covers every
    row gives the sum of the column. *)
Lemma zsum_groups (f : R -> Z) (ks : list K) (rows : list R) :
  NoDup ks ->
  (forall r, In r rows -> exists k, In k ks /\ key r = Some k) ->
  zsum (map (fun k => zsum (map f (filter (in_group eqb key k) rows))) ks)
  = zsum (map f rows).
Proof.
  intros Hnd. induction rows as [|r rows IH]; intros Hcov.
  - clear Hnd Hcov. simpl.
    induction ks as [|k ks IHk]; simpl; [|rewrite IHk]; reflexivity.
  - destruct (Hcov r (or_introl eq_refl)) as [k0 [Hk0 Hkey]].
    rewrite (map_ext
               (fun k => zsum (map f (filter (in_group eqb key k) (r :: rows))))
               (fun k => (if eqb k0 k then f r else 0)
                         + zsum (map f (filter (in_group eqb key k) rows)))).
    + rewrite zsum_map_add, zsum_indicator by assumption.
      rewrite IH by (intros x Hx; apply Hcov; right; exact Hx).
      reflexivity.
    + intros k. simpl. unfold in_group at 1. rewrite Hkey.
      destruct (eqb k0 k); reflexivity.
Qed.

Lemma groupby_zsum (f : R -> Z) (rows : list R) :
  (forall r, In r rows -> key r <> None) ->
  zsum (map (fun g => zsum (map f (snd g))) (groupby eqb leb key rows))
  = zsum (map f rows).
Proof.
  intros Hkey. unfold groupby. rewrite map_map. simpl.
  apply zsum_groups; [apply group_keys_NoDup|].
  intros r Hr. specialize (Hkey r Hr).
  destruct (key r) as [k|] eqn:E; [|congruence].
  exists k. split; [|reflexivity].
  apply group_keys_In. exists r. auto.
Qed.

(** The same for the wrapped sums the aggregation computes. *)
Lemma groupby_sum (f : R -> Z) (rows : list R) :
  (forall r, In r rows -> key r <> None) ->
  I64.sum (map (fun g => I64.sum (map f (snd g))) (groupby eqb leb key rows))
  = I64.sum (map f rows).
Proof.
  intros Hkey.
  rewrite (map_ext (fun g => I64.sum (map f (snd g)))
                   (fun g => I64.wrap (zsum (map f (snd g)))))
    by (intros g; apply sum_wrap).
  rewrite <- (map_map (fun g => zsum (map f (snd g))) I64.wrap).
  rewrite !sum_wrap, wrap_zsum_map_wrap, groupby_zsum by exact Hkey.
  reflexivity.
Qed.

End GroupByFacts.

(* ================================================================== *)
(** * The station summary                                              *)
(* ================================================================== *)

Lemma summary_values (df : frame RidershipRecord) :
  values (create_station_summary df)
  = map summary_row (groupby key_eqb key_leb station_key (values df)).
Proof. apply values_range_index. Qed.

Lemma summary_keys (df : frame RidershipRecord) :
  map summary_key (values (create_station_summary df))
  = group_keys key_eqb key_leb station_key (values df).
Proof.
  rewrite summary_values, map_map.
  rewrite <- (groupby_keys key_eqb key_leb station_key).
  apply map_ext. intros [[s b] g]. reflexivity.
Qed.

Lemma station_key_Some {T : Type} (r : Record_ T) (s b : string) :
  station_key r = Some (s, b) <-> station_complex r = Some s /\ borough r = Some b.
Proof.
  unfold station_key.
  destruct (station_complex r), (borough r); split;
    try (intros [H1 H2]); try intros H; try discriminate;
    try (inversion H; subst; auto); congruence.
Qed.

Lemma valid_records_keyed (df : frame RidershipRecord) :
  valid_records df -> forall r, In r (values df) -> station_key r <> None.
Proof.
  unfold valid_records. rewrite Forall_forall. intros H r Hr.
  destruct (H r Hr) as [Hs Hb]. unfold station_key.
  destruct (station_complex r), (borough r); congruence.
Qed.

(** ** C1. For every valid loaded record set, [create_station_summary]
    yields exactly one row per distinct (station_complex, borough) pair of
    the input -- no pair twice, and a pair has a row exactly when a record
    carries it -- and the [total_ridership] column of the summary sums to
    the sum of the [ridership] column of the input. *)
Theorem summary_one_row_per_pair_and_same_total (df : frame RidershipRecord) :
  valid_records df ->
  let summary := values (create_station_summary df) in
  NoDup (map summary_key summary)
  /\ (forall s b,
        In (s, b) (map summary_key summary)
        <-> exists r, In r (values df)
                      /\ station_complex r = Some s /\ borough r = Some b)
  /\ I64.sum (map total_ridership summary) = I64.sum (map ridership (values df)).
Proof.
  intros Hvalid summary. subst summary. rewrite summary_keys.
  split; [apply group_keys_NoDup, key_eqb_eq|]. split.
  - intros s b. rewrite (group_keys_In key_eqb key_leb station_key key_eqb_eq).
    split; intros [r [Hr Hk]]; exists r; (split; [exact Hr|]);
      apply station_key_Some; exact Hk.
  - rewrite summary_values, map_map. simpl.
    apply (groupby_sum key_eqb key_leb station_key key_eqb_eq ridership).
    apply valid_records_keyed, Hvalid.
Qed.

(** The three-row scenario is a valid record set, with two summary rows. *)
Lemma summary_one_row_per_pair_and_same_total_witness :
  valid_records (loaded three_rows)
  /\ map summary_key (values (create_station_summary (loaded three_rows)))
     = [("StationA", "Queens"); ("StationB", "Bronx")]
  /\ I64.sum (map total_ridership
                (values (create_station_summary (loaded three_rows))))
     = I64.sum (map ridership (values (loaded three_rows))).
Proof.
  assert (Hv : valid_records (loaded three_rows)).
  { repeat constructor; simpl; discriminate. }
  split; [exact Hv|]. split; [reflexivity|].
  apply (summary_one_row_per_pair_and_same_total (loaded three_rows) Hv).
Defined.

(** The end-to-end scenario: two summary rows, and the Queens selection
    keeps the StationA row and the two StationA records. *)
Example three_rows_summary :
  map (fun s => (summary_key s, total_ridership s, total_transfers s))
      (values (create_station_summary (loaded three_rows)))
  = [("StationA", "Queens", 12, 3); ("StationB", "Bronx", 3, 0)]
  /\ map summary_key
       (values (station_df (filter_view (Some "Queens") (loaded three_rows)
                              (create_station_summary (loaded three_rows)))))
     = [("StationA", "Queens")]
  /\ labels (main_df (filter_view (Some "Queens") (loaded three_rows)
                        (create_station_summary (loaded three_rows))))
     = [0%nat; 1%nat].
Proof. repeat split. Qed.

(** ** C2, as stated, fails: with StationB/Bronx read before
    StationA/Queens the summary lists StationA first, whereas the order of
    first appearance lists StationB first. *)
Lemma summary_order_is_not_first_appearance :
  map summary_key (values (create_station_summary (loaded b_before_a)))
  = [("StationA", "Queens"); ("StationB", "Bronx")]
  /\ first_appearance_keys (loaded b_before_a)
     = [("StationB", "Bronx"); ("StationA", "Queens")]
  /\ map summary_key (values (create_station_summary (loaded b_before_a)))
     <> first_appearance_keys (loaded b_before_a).
Proof.
  split; [reflexivity|]. split; [reflexivity|]. vm_compute. discriminate.
Qed.

(** ** C2, amended. For every input record set, the rows of
    [create_station_summary] are in strictly ascending order of their
    (station_complex, borough) key, compared lexicographically: the
    grouping sorts the group keys. *)
Theorem summary_rows_sorted_by_key (df : frame RidershipRecord) :
  StronglySorted key_lt (map summary_key (values (create_station_summary df))).
Proof.
  rewrite summary_keys.
  pose proof (sort_sorted key_leb key_leb_total key_leb_trans
                (unique key_eqb (present_keys station_key (values df)))) as Hs.
  apply sorted_nodup_strict in Hs;
    [|apply sort_NoDup, unique_NoDup, key_eqb_eq].
  unfold group_keys. induction Hs as [|k ks _ IH Hk]; constructor.
  - exact IH.
  - eapply Forall_impl; [|exact Hk].
    intros k' [Hle Hne]. apply key_leb_neq_lt; assumption.
Qed.

(* ================================================================== *)
(** * Top-N, argmax and the metric cards                               *)
(* ================================================================== *)

Section TopNFacts.

Context {A : Type}.
Variable col : A -> Z.

Lemma argmax_from_In (best : nat * A) (df : frame A) :
  In (argmax_from col best df) (best :: df).
Proof.
  revert best. induction df as [|row df IH]; intros best; simpl.
  - left. reflexivity.
  - destruct (col (snd best) <? col (snd row)).
    + right. apply IH.
    + destruct (IH best) as [H | H]; [left; exact H | right; right; exact H].
Qed.

Lemma argmax_from_max (best : nat * A) (df : frame A) :
  Forall (fun row => col (snd row) <= col (snd (argmax_from col best df)))
         (best :: df).
Proof.
  revert best. induction df as [|row df IH]; intros best; simpl.
  - constructor; [lia | constructor].
  - destruct (col (snd best) <? col (snd row)) eqn:E.
    + specialize (IH row). inversion IH as [|? ? Hrow Hrest]; subst.
      constructor; [|constructor; assumption].
      apply Z.ltb_lt in E. lia.
    + specialize (IH best). inversion IH as [|? ? Hbest Hrest]; subst.
      constructor; [exact Hbest|]. constructor; [|exact Hrest].
      apply Z.ltb_ge in E. lia.
Qed.

Lemma loc_label (df : frame A) (i : nat) :
  In i (labels df) -> exists a, loc df i = Ok a /\ In (i, a) df.
Proof.
  induction df as [|[j a] df IH]; simpl; [contradiction|].
  intros Hin. destruct (Nat.eqb_spec j i) as [-> | Hne].
  - exists a. auto.
  - destruct Hin as [-> | Hin]; [contradiction|].
    destruct (IH Hin) as [a' [Hloc Ha']]. exists a'. auto.
Qed.

(** On a frame with a row, [idxmax] then [loc] finds a row of the frame. *)
Lemma idxmax_loc (df : frame A) :
  df <> [] ->
  exists i a, idxmax col df = Ok i /\ loc df i = Ok a /\ In (i, a) df.
Proof.
  destruct df as [|row df]; [congruence|]. intros _.
  pose proof (argmax_from_In row df) as Hin.
  destruct (loc_label (row :: df) (fst (argmax_from col row df))) as [a [Hloc Ha]].
  { unfold labels. apply in_map. exact Hin. }
  exists (fst (argmax_from col row df)), a. auto.
Qed.

(** With labels that identify rows, the row found holds a maximum. *)
Lemma idxmax_loc_max (df : frame A) (i : nat) (a : A) :
  NoDup (labels df) -> idxmax col df = Ok i -> loc df i = Ok a ->
  In (i, a) df /\ Forall (fun row => col (snd row) <= col a) df.
Proof.
  destruct df as [|row df]; [discriminate|]. intros Hnd Hi Hloc.
  injection Hi as <-.
  pose proof (argmax_from_In row df) as Hin.
  pose proof (argmax_from_max row df) as Hmax.
  destruct (loc_label (row :: df) (fst (argmax_from col row df))) as [a' [Hloc' Ha']].
  { unfold labels. apply in_map. exact Hin. }
  rewrite Hloc in Hloc'. injection Hloc' as <-.
  assert (Heq : argmax_from col row df = (fst (argmax_from col row df), a)).
  { clear Hmax Hloc. revert Hnd Hin Ha'.
    generalize (argmax_from col row df) as m. generalize (row :: df) as l.
    induction l as [|[j b] l IH]; intros [mi ma] Hnd Hin Ha'; [contradiction|].
    simpl in *. inversion Hnd as [|? ? Hnotin Hnd']; subst.
    destruct Hin as [Hin | Hin], Ha' as [Ha' | Ha'].
    - congruence.
    - inversion Hin; subst. exfalso. apply Hnotin.
      change mi with (fst (mi, a)). apply in_map. exact Ha'.
    - inversion Ha'; subst. exfalso. apply Hnotin.
      change mi with (fst (mi, ma)). apply in_map. exact Hin.
    - apply (IH (mi, ma)); assumption. }
  split; [exact Ha'|]. rewrite Heq in Hmax. exact Hmax.
Qed.

Lemma nlargest_all (n : nat) (df : frame A) :
  (List.length df <= n)%nat -> Permutation (nlargest col n df) df.
Proof.
  intros Hlen. unfold nlargest.
  rewrite firstn_all2 by (rewrite sort_length; exact Hlen).
  apply sort_perm.
Qed.

Lemma sort_values_perm (df : frame A) : Permutation (sort_values col df) df.
Proof. apply sort_perm. Qed.

End TopNFacts.

Lemma labels_combine_seq {A : Type} (l : list A) (n : nat) :
  map fst (combine (seq n (List.length l)) l) = seq n (List.length l).
Proof.
  revert n. induction l as [|x l IH]; intros n; simpl; [reflexivity|].
  rewrite IH. reflexivity.
Qed.

Lemma range_index_labels_NoDup {A : Type} (l : list A) :
  NoDup (labels (range_index l)).
Proof.
  unfold labels, range_index. rewrite labels_combine_seq. apply seq_NoDup.
Qed.

Lemma select_labels_NoDup {A : Type} (p : A -> bool) (df : frame A) :
  NoDup (labels df) -> NoDup (labels (select p df)).
Proof.
  unfold labels, select. induction df as [|row df IH]; simpl; intros Hnd.
  - constructor.
  - inversion Hnd as [|? ? Hnotin Hnd']; subst.
    destruct (p (snd row)); simpl; [|apply IH, Hnd'].
    constructor; [|apply IH, Hnd'].
    intros Hin. apply Hnotin. apply in_map_iff in Hin.
    destruct Hin as [r [Hr Hin]]. apply filter_In in Hin.
    rewrite <- Hr. apply in_map. apply Hin.
Qed.

(** In the station frame the script works on, the row the "Busiest
    Station" card is read from holds the largest [total_ridership]. *)
Lemma busiest_station_is_max (df : frame RidershipRecord) (sel : cell)
  (i : nat) (a : StationSummary) :
  let stations := station_df (filter_view sel df (create_station_summary df)) in
  idxmax total_ridership stations = Ok i -> loc stations i = Ok a ->
  In (i, a) stations
  /\ Forall (fun row => total_ridership (snd row) <= total_ridership a) stations.
Proof.
  intros stations. apply idxmax_loc_max. subst stations. unfold filter_view.
  destruct (cell_eqb sel OVERALL); simpl.
  - apply range_index_labels_NoDup.
  - apply select_labels_NoDup, range_index_labels_NoDup.
Qed.

Lemma empty_false {A : Type} (df : frame A) : empty df = false <-> df <> [].
Proof. destruct df; simpl; split; congruence. Qed.

(** The metric column never raises: each argmax sits behind a guard that
    skips it on an empty frame, and on a frame with rows the card is made
    from one of them. *)
Lemma key_metrics_cards (v : View) (line : frame (Timestamp * Z)) :
  exists day_cards station_cards,
    key_metrics v line
    = Ok (mkMetric "Total Ridership"
            (Int (I64.sum (map ridership (values (main_df v))))) None
          :: mkMetric "Avg. Ridership / Hour"
               (Float (F64.mean_int (map ridership (values (main_df v))))) None
          :: day_cards ++ station_cards)
    /\ (if empty line then day_cards = []
        else exists i a, In (i, a) line /\ day_cards = [busiest_day_card a])
    /\ (if empty (station_df v) then station_cards = []
        else exists i a,
            In (i, a) (station_df v)
            /\ station_cards
               = [busiest_station_card a;
                  mkMetric "Total Transfers"
                    (Int (I64.sum (map total_transfers (values (station_df v)))))
                    None]).
Proof.
  unfold key_metrics.
  destruct (empty line) eqn:El; destruct (empty (station_df v)) eqn:Es;
    cbn [negb bind].
  - exists [], []. repeat split.
  - apply empty_false in Es.
    destruct (idxmax_loc total_ridership _ Es) as [j [b [Hj [Hb Hinb]]]].
    rewrite Hj. cbn [bind]. rewrite Hb. cbn [bind].
    eexists [], _. split; [reflexivity|]. split; [reflexivity|].
    exists j, b. split; [exact Hinb | reflexivity].
  - apply empty_false in El.
    destruct (idxmax_loc snd _ El) as [i [a [Hi [Ha Hina]]]].
    rewrite Hi. cbn [bind]. rewrite Ha. cbn [bind].
    eexists _, []. split; [reflexivity|]. split; [|reflexivity].
    exists i, a. split; [exact Hina | reflexivity].
  - apply empty_false in El. apply empty_false in Es.
    destruct (idxmax_loc snd _ El) as [i [a [Hi [Ha Hina]]]].
    destruct (idxmax_loc total_ridership _ Es) as [j [b [Hj [Hb Hinb]]]].
    rewrite Hi. cbn [bind]. rewrite Ha. cbn [bind].
    rewrite Hj. cbn [bind]. rewrite Hb. cbn [bind].
    eexists _, _. split; [reflexivity|]. split.
    + exists i, a. split; [exact Hina | reflexivity].
    + exists j, b. split; [exact Hinb | reflexivity].
Qed.

Lemma key_metrics_ok (v : View) (line : frame (Timestamp * Z)) :
  exists cards,
    key_metrics v line = Ok cards
    /\ map metric_label cards = card_labels (empty line) (empty (station_df v))
    /\ (forall c, In c cards -> metric_label c = "Busiest Station" ->
          exists row, In row (station_df v) /\ c = busiest_station_card (snd row))
    /\ (forall c, In c cards -> metric_label c = "Busiest Day" ->
          exists row, In row line /\ c = busiest_day_card (snd row)).
Proof.
  destruct (key_metrics_cards v line) as [dc [sc [Hk [Hd Hs]]]].
  eexists. split; [exact Hk|].
  destruct (empty line); destruct (empty (station_df v));
    repeat match goal with
           | H : exists _, _ |- _ => destruct H
           | H : _ /\ _ |- _ => destruct H
           end; subst dc sc;
    (split; [reflexivity|]); split; intros c Hc Hl; simpl in Hc;
    repeat match goal with
           | H : _ \/ _ |- _ => destruct H
           | H : False |- _ => contradiction
           end; subst c; try discriminate Hl;
    eexists; (split; [eassumption | reflexivity]).
Qed.

(** What a rendered page is made of: the file had a row, the cards are
    those of the key-metrics column, and every block holds the data the
    script computes for it. *)
Lemma render_inv (draw : chart -> result unit) (df : frame RidershipRecord)
  (ss : frame StationSummary) (sel : cell) (p : Page) :
  render draw df ss sel = Ok p ->
  let v := filter_view sel df ss in
  df <> []
  /\ exists cards,
      key_metrics v (line_data_to_plot (main_df v)) = Ok cards
      /\ p = mkPage v (line_data_to_plot (main_df v)) cards
               (sort_values total_ridership (top_10_stations v))
               (heatmap_pivot (main_df v))
               (sort_values total_transfers (top_10_transfers v))
               (head 1000 df).
Proof.
  intros H v. unfold render in H. fold v in H.
  destruct df as [|row df'].
  - exfalso. unfold require_numeric in H. cbn [empty bind] in H.
    repeat match type of H with
           | bind ?m _ = Ok _ =>
               destruct m; cbn [bind] in H; [|discriminate H]
           end.
    discriminate H.
  - split; [discriminate|].
    unfold require_numeric in H. cbn [empty bind] in H.
    repeat match type of H with
           | bind (key_metrics ?a ?b) _ = Ok _ =>
               destruct (key_metrics a b) as [cards|]; cbn [bind] in H;
               [|discriminate H]
           | bind ?m _ = Ok _ =>
               destruct m; cbn [bind] in H; [|discriminate H]
           end.
    exists cards. split; [reflexivity|]. injection H as <-. reflexivity.
Qed.

(** With the plotting library of the examples, the page renders when the
    file had a row and no total of the view is negative. *)
Lemma render_plotly (df : frame RidershipRecord) (ss : frame StationSummary)
  (sel : cell) :
  let v := filter_view sel df ss in
  df <> [] ->
  existsb (fun row => total_ridership (snd row) <? 0) (station_df v) = false ->
  exists cards,
    key_metrics v (line_data_to_plot (main_df v)) = Ok cards
    /\ render plotly_draw df ss sel
       = Ok (mkPage v (line_data_to_plot (main_df v)) cards
               (sort_values total_ridership (top_10_stations v))
               (heatmap_pivot (main_df v))
               (sort_values total_transfers (top_10_transfers v))
               (head 1000 df)).
Proof.
  intros v Hdf Hpos.
  destruct (key_metrics_ok v (line_data_to_plot (main_df v))) as [cards [Hk _]].
  exists cards. split; [exact Hk|].
  unfold render. fold v. rewrite Hk.
  destruct df as [|row df']; [contradiction|].
  unfold require_numeric. cbn [empty bind plotly_draw].
  rewrite Hpos.
  destruct (cell_eqb sel OVERALL); reflexivity.
Qed.

(** A file with a header and no row never gives a page. *)
Lemma render_header_only (draw : chart -> result unit)
  (ss : frame StationSummary) (sel : cell) (p : Page) :
  render draw [] ss sel <> Ok p.
Proof.
  intros H. apply render_inv in H. destruct H as [H _]. apply H. reflexivity.
Qed.

(** ** C9. The claim fails on the empty input it names: for a file with a
    header and no data row, [load_data] returns the empty frame, the two
    guards of the key-metrics column skip the argmax cards, and then
    [station_df.nlargest(10, 'total_ridership')] raises [TypeError],
    because the totals of a summary made from no row are not numbers.  The
    run ends with that exception, under the default selection and the
    plotting library of the examples; and whatever the selection, the
    summary and the plotting library, no page is rendered from the empty
    frame. *)
Theorem header_only_file_ends_in_type_error :
  load_data Strptime.convert (csv_with []) DATA_FILE = Ok []
  /\ key_metrics (filter_view OVERALL [] (create_station_summary []))
                 (line_data_to_plot [])
     = Ok [mkMetric "Total Ridership" (Int 0) None;
           mkMetric "Avg. Ridership / Hour" (Float PrimFloat.nan) None]
  /\ render plotly_draw [] (create_station_summary []) OVERALL = Raise TypeError
  /\ app pandas_plotly (csv_with []) 0 = Uncaught TypeError
  /\ forall (draw : chart -> result unit) (ss : frame StationSummary)
            (sel : cell) (p : Page),
       render draw [] ss sel <> Ok p.
Proof.
  split; [reflexivity|]. split; [reflexivity|].
  split; [reflexivity|]. split; [reflexivity|].
  intros draw ss sel p. apply render_header_only.
Qed.

(* ================================================================== *)
(** * Start-up                                                         *)
(* ================================================================== *)

(** The conversion under the format raises nothing but [ValueError]. *)
Lemma strptime_raises (s : string) (e : exn) :
  Strptime.strptime s = Raise e -> e = ValueError.
Proof.
  unfold Strptime.strptime.
  destruct (Strptime.match_format s) as [[[[[[[mo d] y] h] mi] sec] pm]|];
    [|congruence].
  destruct (d <=? Calendar.days_in_month y mo); [|congruence].
  match goal with |- context [if ?c then _ else _] => destruct c end; congruence.
Qed.

Lemma convert_raises (s : string) (e : exn) :
  Strptime.convert s = Raise e -> e = ValueError.
Proof.
  unfold Strptime.convert.
  destruct (String.eqb s EmptyString || existsb (String.eqb s) Strptime.nat_strings);
    [discriminate|].
  destruct (Strptime.strptime s) eqn:E; cbn [bind]; [discriminate|].
  intros H. injection H as <-. eapply strptime_raises, E.
Qed.

(** Converting the column succeeds when every cell converts, and raises at
    the first cell that does not. *)
Lemma parse_rows (convert : string -> result (option Timestamp))
  (raw : frame RawRecord) :
  match conversion_error convert raw with
  | None => exists df, mapM (parse_row convert) raw = Ok df
  | Some e => mapM (parse_row convert) raw = Raise e
  end.
Proof.
  induction raw as [|[i r] raw IH]; [eexists; reflexivity|].
  cbn [mapM conversion_error snd]. unfold parse_row at 1 3. cbn [snd fst].
  destruct (to_datetime convert (transit_timestamp r)) as [t|e]; cbn [bind].
  - destruct (conversion_error convert raw).
    + rewrite IH. reflexivity.
    + destruct IH as [df ->]. cbn [bind]. eexists. reflexivity.
  - reflexivity.
Qed.

(** ** C3, as stated, fails: a file whose timestamps are written in another
    format makes [load_data] raise [ValueError], and the run then ends with
    that exception uncaught; it does not end in the branch that shows the
    operator message and stops. *)
Lemma unparsable_timestamp_shows_no_operator_message :
  load_data Strptime.convert (csv_with iso_rows) DATA_FILE = Raise ValueError
  /\ app pandas_plotly (csv_with iso_rows) 0 = Uncaught ValueError
  /\ ~ (exists shown, app pandas_plotly (csv_with iso_rows) 0 = Stopped shown).
Proof.
  split; [reflexivity|]. split; [reflexivity|].
  intros [elements H]. vm_compute in H. discriminate.
Qed.

(** ** C3, amended. The start-up has one handler, for [FileNotFoundError]:
    when [load_data] raises it, the run shows the error and the instruction
    to put the CSV file next to the app, and stops; any other exception of
    [load_data] ends the run uncaught, with no message of the program and no
    dashboard block.  [load_data] raises what the reader raises; when the
    file is read, it raises what the conversion raises on the first cell of
    the timestamp column that does not convert under the format (a
    [ValueError] with pandas); and when every cell converts it returns the
    frame, and the run goes on to the page: it ends as the rendering of the
    selected entry ends, with the page or with the exception of a block, and
    never in the stop of the handler. *)
Theorem startup_outcome (lib : Libraries)
  (read_csv : string -> result (frame RawRecord)) (choice : nat) :
  let handled e :=
    match e with
    | FileNotFoundError => Stopped file_not_found_elements
    | _ => Uncaught e
    end in
  match read_csv DATA_FILE with
  | Raise e =>
      load_data (lib_convert lib) read_csv DATA_FILE = Raise e
      /\ app lib read_csv choice = handled e
  | Ok raw =>
      match conversion_error (lib_convert lib) raw with
      | Some e =>
          load_data (lib_convert lib) read_csv DATA_FILE = Raise e
          /\ app lib read_csv choice = handled e
      | None =>
          exists df,
            load_data (lib_convert lib) read_csv DATA_FILE = Ok df
            /\ app lib read_csv choice
               = match render (lib_draw lib) df (create_station_summary df)
                              (nth choice (borough_list df) OVERALL) with
                 | Ok p => Rendered p
                 | Raise e => Uncaught e
                 end
      end
  end.
Proof.
  intros handled. unfold app, load_data.
  destruct (read_csv DATA_FILE) as [raw|e] eqn:Eread; cbn [bind].
  - pose proof (parse_rows (lib_convert lib) raw) as Hparse.
    destruct (conversion_error (lib_convert lib) raw) as [e|].
    + rewrite Hparse. cbn [bind]. split; [reflexivity|].
      destruct e; reflexivity.
    + destruct Hparse as [df Hdf]. rewrite Hdf. cbn [bind].
      exists df. split; reflexivity.
  - split; [reflexivity|]. destruct e; reflexivity.
Qed.

(** The branches of the start-up on concrete readers. *)
Example startup_examples :
  app pandas_plotly no_file 0 = Stopped file_not_found_elements
  /\ app pandas_plotly (fun _ => Raise PermissionError) 0
     = Uncaught PermissionError
  /\ conversion_error Strptime.convert (range_index iso_rows) = Some ValueError
  /\ exists p, app pandas_plotly (csv_with three_rows) 2 = Rendered p
               /\ title_suffix (page_view p) = "in Bronx".
Proof.
  split; [reflexivity|]. split; [reflexivity|]. split; [reflexivity|].
  eexists. split; reflexivity.
Qed.

(* ================================================================== *)
(** * The filter block                                                 *)
(* ================================================================== *)

(** ** C7. Filtering is idempotent: for the Overall selection and for any
    borough alike, applying the filter block to the frames it produced gives
    the same view again. *)
Theorem filter_view_idempotent (sel : cell) (df : frame RidershipRecord)
  (ss : frame StationSummary) :
  filter_view sel (main_df (filter_view sel df ss))
                  (station_df (filter_view sel df ss))
  = filter_view sel df ss.
Proof.
  unfold filter_view.
  destruct (cell_eqb sel OVERALL) eqn:E; simpl; [reflexivity|].
  unfold filter_records, filter_summaries, select.
  rewrite !filter_idem. reflexivity.
Qed.

Lemma cell_eqb_eq (a b : cell) : cell_eqb a b = true -> a = b.
Proof.
  destruct a, b; simpl; try discriminate.
  intros H. apply String.eqb_eq in H. congruence.
Qed.

(** ** C8. For every selection other than Overall, the filtered station
    summaries are the rows of the station summary whose borough is the
    selection, in their order, and every filtered record has that borough;
    for the Overall selection both frames are passed on unchanged. *)
Theorem filter_view_selects_borough (sel : cell) (df : frame RidershipRecord)
  (ss : frame StationSummary) :
  (sel = OVERALL ->
     main_df (filter_view sel df ss) = df
     /\ station_df (filter_view sel df ss) = ss)
  /\ (sel <> OVERALL ->
        (forall row, In row (station_df (filter_view sel df ss))
                     <-> In row ss /\ Some (ss_borough (snd row)) = sel)
        /\ Subsequence (station_df (filter_view sel df ss)) ss
        /\ Forall (fun row => borough (snd row) = sel)
                  (main_df (filter_view sel df ss))
        /\ Subsequence (main_df (filter_view sel df ss)) df).
Proof.
  split.
  - intros ->. split; reflexivity.
  - intros Hne. unfold filter_view.
    destruct (cell_eqb sel OVERALL) eqn:E.
    { apply cell_eqb_eq in E. contradiction. }
    simpl. unfold filter_summaries, filter_records, select.
    split; [|split; [apply filter_subsequence|split; [|apply filter_subsequence]]].
    + intros row. rewrite filter_In. split.
      * intros [Hin Hb]. split; [exact Hin | apply cell_eqb_eq, Hb].
      * intros [Hin Hb]. split; [exact Hin|].
        rewrite <- Hb. simpl. apply String.eqb_refl.
    + apply Forall_forall. intros row Hrow. apply filter_In in Hrow.
      apply cell_eqb_eq. apply Hrow.
Qed.

(** The three-row scenario under Overall and under Queens. *)
Lemma filter_view_selects_borough_witness :
  (main_df (filter_view OVERALL (loaded three_rows)
              (create_station_summary (loaded three_rows)))
   = loaded three_rows
   /\ station_df (filter_view OVERALL (loaded three_rows)
                    (create_station_summary (loaded three_rows)))
      = create_station_summary (loaded three_rows))
  /\ Forall (fun row => borough (snd row) = Some "Queens")
            (main_df (filter_view (Some "Queens") (loaded three_rows)
                        (create_station_summary (loaded three_rows)))).
Proof.
  split.
  - apply (filter_view_selects_borough OVERALL). reflexivity.
  - apply (filter_view_selects_borough (Some "Queens")). discriminate.
Defined.

(* ================================================================== *)
(** * The raw-data preview                                             *)
(* ================================================================== *)





(* ================================================================== *)
(** * Filtering by every borough                                       *)
(* ================================================================== *)

Section Partition.

Context {K A : Type}.
(** [m k x]: the filter for [k] keeps [x]. *)
Variable m : K -> A -> bool.

Lemma concat_filter_miss (ks : list K) (x : A) (l : list A) :
  (forall k, In k ks -> m k x = false) ->
  List.concat (map (fun k => filter (m k) (x :: l)) ks)
  = List.concat (map (fun k => filter (m k) l) ks).
Proof.
  induction ks as [|k ks IH]; intros Hmiss; [reflexivity|].
  cbn [map List.concat].
  rewrite IH by (intros k' Hk'; apply Hmiss; right; exact Hk').
  cbn [filter]. rewrite (Hmiss k (or_introl eq_refl)).
  reflexivity.
Qed.

(** When each element is kept by the filter of exactly one key of [ks],
    the filtered lists together hold every element exactly once. *)
Lemma filters_partition (ks : list K) (l : list A) :
  NoDup ks ->
  (forall x, In x l ->
     exists k0, In k0 ks /\ m k0 x = true
                /\ forall k, In k ks -> m k x = true -> k = k0) ->
  Permutation (List.concat (map (fun k => filter (m k) l) ks)) l.
Proof.
  intros Hnd. induction l as [|x l IH]; intros Hcov.
  - clear Hcov Hnd. induction ks as [|k ks IHk]; simpl; [constructor | exact IHk].
  - destruct (Hcov x (or_introl eq_refl)) as [k0 [Hin [Hhit Honly]]].
    destruct (in_split _ _ Hin) as [ks1 [ks2 ->]].
    apply NoDup_remove_2 in Hnd as Hnotin.
    assert (Hmiss : forall k, In k (ks1 ++ ks2) -> m k x = false).
    { intros k Hk. destruct (m k x) eqn:E; [|reflexivity].
      exfalso. apply Hnotin.
      rewrite <- (Honly k); [exact Hk | | exact E].
      apply in_app_iff. apply in_app_iff in Hk.
      destruct Hk; [left | right; right]; assumption. }
    specialize (IH (fun y Hy => Hcov y (or_intror Hy))).
    rewrite map_app, concat_app in IH |- *.
    cbn [map List.concat] in IH |- *.
    rewrite !concat_filter_miss
      by (intros k Hk; apply Hmiss, in_app_iff; auto).
    cbn [filter]. rewrite Hhit.
    rewrite <- app_comm_cons, <- Permutation_middle.
    apply perm_skip. exact IH.
Qed.

End Partition.

Lemma cell_same_eq (a b : cell) : cell_same a b = true <-> a = b.
Proof.
  destruct a, b; simpl; try (split; congruence).
  rewrite String.eqb_eq. split; congruence.
Qed.

Lemma filters_disjoint {A : Type} (f : A -> cell) (b1 b2 : cell)
  (df : frame A) (row : nat * A) :
  b1 <> b2 ->
  In row (select (fun r => cell_eqb (f r) b1) df) ->
  ~ In row (select (fun r => cell_eqb (f r) b2) df).
Proof.
  unfold select. rewrite !filter_In. intros Hne [_ H1] [_ H2].
  apply cell_eqb_eq in H1, H2. congruence.
Qed.

Lemma summary_borough_observed (df : frame RidershipRecord)
  (row : nat * StationSummary) :
  In row (create_station_summary df) ->
  In (Some (ss_borough (snd row))) (map borough (values df)).
Proof.
  intros Hrow.
  assert (Hk : In (summary_key (snd row))
                  (map summary_key (values (create_station_summary df)))).
  { apply in_map. unfold values. apply in_map. exact Hrow. }
  rewrite summary_keys in Hk.
  apply (group_keys_In key_eqb key_leb station_key key_eqb_eq) in Hk.
  destruct Hk as [r [Hr Hkey]]. apply station_key_Some in Hkey.
  destruct Hkey as [_ Hb]. simpl in Hb. rewrite <- Hb.
  apply in_map. exact Hr.
Qed.

(** ** C6, as stated, fails: a record whose borough field is blank is kept
    by the filter of no borough value, so the filtered record sets of all
    the distinct values together are not the whole record set. *)
Lemma blank_borough_row_is_in_no_filtered_set :
  let df := loaded blank_borough in
  let boroughs := unique cell_same (map borough (values df)) in
  boroughs = [Some "Queens"; None]
  /\ labels df = [0%nat; 1%nat]
  /\ labels (List.concat (map (fun b => filter_records b df) boroughs)) = [0%nat]
  /\ ~ Permutation (List.concat (map (fun b => filter_records b df) boroughs)) df.
Proof.
  split; [reflexivity|]. split; [reflexivity|]. split; [reflexivity|].
  intros H. apply Permutation_length in H. discriminate H.
Qed.

(** ** C6, amended. For every record set in which each record has a borough
    value, filtering by the distinct borough values yields a partition:
    the filtered record sets of two distinct values share no row and so do
    the filtered summaries, and the filtered sets of all the distinct values
    together hold each record, respectively each summary row, exactly
    once. *)
Theorem borough_filters_partition (df : frame RidershipRecord) :
  Forall (fun r => borough r <> None) (values df) ->
  let boroughs := unique cell_same (map borough (values df)) in
  let ss := create_station_summary df in
  (forall b1 b2 row, b1 <> b2 ->
     In row (filter_records b1 df) -> ~ In row (filter_records b2 df))
  /\ (forall b1 b2 row, b1 <> b2 ->
        In row (filter_summaries b1 ss) -> ~ In row (filter_summaries b2 ss))
  /\ Permutation (List.concat (map (fun b => filter_records b df) boroughs)) df
  /\ Permutation (List.concat (map (fun b => filter_summaries b ss) boroughs)) ss.
Proof.
  intros Hb boroughs ss. subst boroughs ss.
  split; [|split; [|split]].
  - intros b1 b2 row. apply (filters_disjoint borough).
  - intros b1 b2 row.
    apply (filters_disjoint (fun s => Some (ss_borough s))).
  - apply (filters_partition (fun b row => cell_eqb (borough (snd row)) b)).
    + apply unique_NoDup, cell_same_eq.
    + intros [i r] Hrow. simpl.
      rewrite Forall_forall in Hb.
      assert (Hr : In r (values df)).
      { unfold values. change r with (snd (i, r)). apply in_map. exact Hrow. }
      specialize (Hb r Hr).
      destruct (borough r) as [b|] eqn:E; [|congruence].
      exists (Some b). split; [|split].
      * apply (unique_In cell_same cell_same_eq). rewrite <- E.
        apply in_map. exact Hr.
      * simpl. apply String.eqb_refl.
      * intros k _ Hk. apply cell_eqb_eq in Hk. congruence.
  - apply (filters_partition
             (fun b row => cell_eqb (Some (ss_borough (snd row))) b)).
    + apply unique_NoDup, cell_same_eq.
    + intros row Hrow. exists (Some (ss_borough (snd row))).
      split; [|split].
      * apply (unique_In cell_same cell_same_eq).
        apply summary_borough_observed. exact Hrow.
      * simpl. apply String.eqb_refl.
      * intros k _ Hk. apply cell_eqb_eq in Hk. congruence.
Qed.

(** Every record of the three-row scenario has a borough. *)
Lemma borough_filters_partition_witness :
  Forall (fun r : RidershipRecord => borough r <> None)
         (values (loaded three_rows))
  /\ Permutation
       (List.concat (map (fun b => filter_records b (loaded three_rows))
                    (unique cell_same (map borough (values (loaded three_rows))))))
       (loaded three_rows).
Proof.
  assert (H : Forall (fun r : RidershipRecord => borough r <> None)
                     (values (loaded three_rows))).
  { repeat constructor; simpl; discriminate. }
  split; [exact H|].
  apply (borough_filters_partition (loaded three_rows) H).
Defined.

(* ================================================================== *)
(** * The weekly heat map                                              *)
(* ================================================================== *)

Lemma weekly_key_at (r : RidershipRecord) (t : Timestamp) (d : string) (h : Z) :
  transit_timestamp r = Some t ->
  Calendar.day_name t = d -> Calendar.hour t = h ->
  weekly_key r = Some (d, h).
Proof. unfold weekly_key. intros -> -> ->. reflexivity. Qed.

(** The table for two readings that fall in the same (day, hour) cell. *)
Lemma heatmap_one_cell (i1 i2 : nat) (r1 r2 : RidershipRecord) :
  weekly_key r1 = Some ("Monday", 9) ->
  weekly_key r2 = Some ("Monday", 9) ->
  ridership r1 = 10 -> ridership r2 = 20 ->
  heatmap_pivot [(i1, r1); (i2, r2)]
  = mkPivot [9] day_order
      [[Some 15%float; None; None; None; None; None; None]].
Proof.
  intros Hk1 Hk2 Hr1 Hr2.
  unfold heatmap_pivot, heatmap_data, groupby, group_keys, present_keys, values.
  unfold in_group. cbn [map flat_map snd filter]. rewrite Hk1, Hk2.
  cbv - [F64.group_mean_int ridership].
  unfold RidershipRecord, Timestamp in *. rewrite Hr1, Hr2.
  reflexivity.
Qed.

(** ** C5. For an input of exactly two records, both on a Monday in hour 9,
    with ridership 10 and 20, the weekly-pattern table holds 15 in the
    (hour 9, Monday) cell, and every other (hour, day) cell is missing: it
    has no value, not the value zero. *)
Theorem weekly_pattern_two_monday_readings (i1 i2 : nat)
  (r1 r2 : RidershipRecord) (t1 t2 : Timestamp) :
  transit_timestamp r1 = Some t1 -> transit_timestamp r2 = Some t2 ->
  Calendar.day_name t1 = "Monday" -> Calendar.hour t1 = 9 ->
  Calendar.day_name t2 = "Monday" -> Calendar.hour t2 = 9 ->
  ridership r1 = 10 -> ridership r2 = 20 ->
  let table := heatmap_pivot [(i1, r1); (i2, r2)] in
  pivot_at table 9 "Monday" = Some 15%float
  /\ forall h d, (h, d) <> (9, "Monday") -> pivot_at table h d = None.
Proof.
  intros Ht1 Ht2 Hd1 Hh1 Hd2 Hh2 Hr1 Hr2 table. subst table.
  rewrite (heatmap_one_cell i1 i2 r1 r2
             (weekly_key_at r1 t1 _ _ Ht1 Hd1 Hh1)
             (weekly_key_at r2 t2 _ _ Ht2 Hd2 Hh2) Hr1 Hr2).
  split; [reflexivity|].
  intros h d Hne. unfold pivot_at, day_order.
  cbn [pivot_index pivot_columns pivot_cells position].
  destruct (Z.eqb_spec 9 h) as [<- | Hh]; [|reflexivity].
  cbn [option_map nth].
  destruct (String.eqb_spec "Monday" d) as [<- | _]; [congruence|].
  repeat match goal with
         | |- context [String.eqb ?a d] => destruct (String.eqb a d)
         end; reflexivity.
Qed.

(** 2024-01-01 09:00 and 2024-01-08 09:30 are both Monday, hour 9. *)
Lemma weekly_pattern_two_monday_readings_witness :
  pivot_at (heatmap_pivot (loaded monday_nine)) 9 "Monday" = Some 15%float
  /\ pivot_at (heatmap_pivot (loaded monday_nine)) 9 "Tuesday" = None
  /\ pivot_at (heatmap_pivot (loaded monday_nine)) 10 "Monday" = None.
Proof.
  destruct (weekly_pattern_two_monday_readings 0 1
              (mkRecord (Some 1704099600000000000) (Some "StationA")
                 (Some "Queens") (Some "omny") (Some "Full Fare") 10 0
                 40.75%float 73.5%float)
              (mkRecord (Some 1704706200000000000) (Some "StationB")
                 (Some "Bronx") (Some "omny") (Some "Full Fare") 20 0
                 40.75%float 73.5%float)
              1704099600000000000 1704706200000000000
              eq_refl eq_refl eq_refl eq_refl eq_refl eq_refl eq_refl eq_refl)
    as [Hcell Hother].
  split; [exact Hcell|]. split; apply Hother; discriminate.
Defined.

(* ================================================================== *)
(** * The metric cards                                                 *)
(* ================================================================== *)

(** ** C4: the "Busiest Day" card. On 2024-01-01 two hours carry 10 riders
    each (20 on the day) and on 2024-01-02 one hour carries 15.  The card
    shows 2024-01-02 with 15 riders, the busiest hourly timestamp, whereas
    the calendar day with the largest total is 2024-01-01 with 20. *)
Theorem busiest_day_card_is_the_busiest_hour :
  let df := loaded two_days in
  (exists p,
     render plotly_draw df (create_station_summary df) OVERALL = Ok p
     /\ page_metrics p
        = [mkMetric "Total Ridership" (Int 35) None;
           mkMetric "Avg. Ridership / Hour"
             (Float (PrimFloat.div 35%float 3%float)) None;
           mkMetric "Busiest Day" (Date 2024 1 2) (Some (Int 15));
           mkMetric "Busiest Station" (Text "StationA") (Some (Int 35));
           mkMetric "Total Transfers" (Int 3) None])
  /\ busiest_calendar_day df = Ok (Date 2024 1 1, 20).
Proof.
  split; [eexists; split|]; reflexivity.
Qed.

(* ================================================================== *)
(** * Grouped sums with rows that lack a key                           *)
(* ================================================================== *)

Section GroupByKeyed.

Context {K R : Type}.
Variable eqb : K -> K -> bool.
Variable leb : K -> K -> bool.
Variable key : R -> option K.
Hypothesis eqb_eq : forall x y, eqb x y = true <-> x = y.

Lemma in_group_keyed (k : K) (r : R) :
  in_group eqb key k r = true -> keyed key r = true.
Proof. unfold in_group, keyed. destruct (key r); congruence. Qed.

Lemma filter_in_group_keyed (k : K) (rows : list R) :
  filter (in_group eqb key k) (filter (keyed key) rows)
  = filter (in_group eqb key k) rows.
Proof.
  induction rows as [|r rows IH]; [reflexivity|].
  cbn [filter]. destruct (keyed key r) eqn:Ek.
  - cbn [filter]. rewrite IH. reflexivity.
  - destruct (in_group eqb key k r) eqn:Eg; [|exact IH].
    apply in_group_keyed in Eg. congruence.
Qed.

Lemma zsum_groups_keyed (f : R -> Z) (ks : list K) (rows : list R) :
  NoDup ks ->
  (forall r k, In r rows -> key r = Some k -> In k ks) ->
  zsum (map (fun k => zsum (map f (filter (in_group eqb key k) rows))) ks)
  = zsum (map f (filter (keyed key) rows)).
Proof.
  intros Hnd Hcov.
  rewrite <- (zsum_groups eqb key eqb_eq f ks (filter (keyed key) rows) Hnd).
  - f_equal. apply map_ext. intros k.
    rewrite filter_in_group_keyed. reflexivity.
  - intros r Hr. apply filter_In in Hr. destruct Hr as [Hr Hk].
    unfold keyed in Hk. destruct (key r) as [k|] eqn:E; [|discriminate].
    exists k. split; [eapply Hcov; eassumption | reflexivity].
Qed.

(** The sums of the groups add up to the sum over the rows that have a
    key; a row without one contributes to no group. *)
Lemma groupby_sum_keyed (f : R -> Z) (rows : list R) :
  I64.sum (map (fun g => I64.sum (map f (snd g))) (groupby eqb leb key rows))
  = I64.sum (map f (filter (keyed key) rows)).
Proof.
  rewrite (map_ext (fun g => I64.sum (map f (snd g)))
                   (fun g => I64.wrap (zsum (map f (snd g)))))
    by (intros g; apply sum_wrap).
  rewrite <- (map_map (fun g => zsum (map f (snd g))) I64.wrap).
  rewrite !sum_wrap, wrap_zsum_map_wrap. f_equal.
  unfold groupby. rewrite map_map. cbn [snd].
  apply zsum_groups_keyed; [apply group_keys_NoDup, eqb_eq|].
  intros r k Hr Hk. apply (group_keys_In eqb leb key eqb_eq). exists r. auto.
Qed.

Hypothesis leb_total : forall x y, leb x y = true \/ leb y x = true.
Hypothesis leb_trans : forall x y z,
    leb x y = true -> leb y z = true -> leb x z = true.

Lemma group_keys_strictly_sorted (rows : list R) :
  StronglySorted (fun a b => leb a b = true /\ a <> b)
                 (group_keys eqb leb key rows).
Proof.
  apply (sorted_nodup_strict (holds leb)).
  - apply sort_sorted; assumption.
  - apply group_keys_NoDup, eqb_eq.
Qed.

End GroupByKeyed.

Lemma Z_leb_total (x y : Z) : (x <=? y) = true \/ (y <=? x) = true.
Proof. rewrite !Z.leb_le. lia. Qed.

Lemma Z_leb_trans (x y z : Z) :
  (x <=? y) = true -> (y <=? z) = true -> (x <=? z) = true.
Proof. rewrite !Z.leb_le. lia. Qed.

Lemma keyed_all {K R : Type} (key : R -> option K) (rows : list R) :
  (forall r, In r rows -> key r <> None) -> filter (keyed key) rows = rows.
Proof.
  intros H. induction rows as [|r rows IH]; [reflexivity|].
  cbn [filter]. unfold keyed at 1.
  destruct (key r) eqn:E.
  - rewrite IH; [reflexivity|]. intros x Hx. apply H. right. exact Hx.
  - exfalso. apply (H r); [left; reflexivity | exact E].
Qed.

(* ================================================================== *)
(** * The hourly trend                                                 *)
(* ================================================================== *)

Lemma line_values (main : frame RidershipRecord) :
  values (line_data_to_plot main)
  = map (fun g => (fst g, I64.sum (map ridership (snd g))))
        (groupby Z.eqb Z.leb transit_timestamp (values main)).
Proof. apply values_range_index. Qed.

Lemma line_timestamps (main : frame RidershipRecord) :
  map fst (values (line_data_to_plot main))
  = group_keys Z.eqb Z.leb transit_timestamp (values main).
Proof.
  rewrite line_values, map_map. cbn [fst].
  apply (groupby_keys Z.eqb Z.leb transit_timestamp).
Qed.

(** ** X1. The hourly series has one point per distinct timestamp of the
    filtered records, in strictly ascending time order, and its values add
    up to the ridership of the records that have a timestamp. *)
Theorem hourly_trend_points (main : frame RidershipRecord) :
  StronglySorted Z.lt (map fst (values (line_data_to_plot main)))
  /\ (forall t, In t (map fst (values (line_data_to_plot main)))
                <-> exists r, In r (values main) /\ transit_timestamp r = Some t)
  /\ I64.sum (map snd (values (line_data_to_plot main)))
     = I64.sum (map ridership (filter (keyed transit_timestamp) (values main))).
Proof.
  split; [|split].
  - rewrite line_timestamps.
    pose proof (group_keys_strictly_sorted Z.eqb Z.leb transit_timestamp
                  Z.eqb_eq Z_leb_total Z_leb_trans (values main)) as Hs.
    induction Hs as [|t ts _ IH Ht]; constructor; [exact IH|].
    eapply Forall_impl; [|exact Ht].
    intros t' [Hle Hne]. apply Z.leb_le in Hle. lia.
  - intros t. rewrite line_timestamps.
    apply (group_keys_In Z.eqb Z.leb transit_timestamp Z.eqb_eq).
  - rewrite line_values, map_map. cbn [snd].
    apply (groupby_sum_keyed Z.eqb Z.leb transit_timestamp Z.eqb_eq).
Qed.

(* ================================================================== *)
(** * Orders on pairs of keys                                          *)
(* ================================================================== *)

Section PairOrder.

Context {A B : Type}.
Variable ea : A -> A -> bool.
Variable la : A -> A -> bool.
Variable eb : B -> B -> bool.
Variable lb : B -> B -> bool.
Hypothesis ea_eq : forall x y, ea x y = true <-> x = y.
Hypothesis eb_eq : forall x y, eb x y = true <-> x = y.
Hypothesis la_total : forall x y, la x y = true \/ la y x = true.
Hypothesis la_trans : forall x y z, la x y = true -> la y z = true -> la x z = true.
Hypothesis la_antisym : forall x y, la x y = true -> la y x = true -> x = y.
Hypothesis lb_total : forall x y, lb x y = true \/ lb y x = true.
Hypothesis lb_trans : forall x y z, lb x y = true -> lb y z = true -> lb x z = true.

Lemma ea_refl (x : A) : ea x x = true.
Proof. apply ea_eq. reflexivity. Qed.

Lemma ea_false (x y : A) : x <> y -> ea x y = false.
Proof.
  intros H. destruct (ea x y) eqn:E; [|reflexivity].
  apply ea_eq in E. contradiction.
Qed.

Lemma pair_eqb_eq (x y : A * B) : pair_eqb ea eb x y = true <-> x = y.
Proof.
  destruct x as [x1 x2], y as [y1 y2]. unfold pair_eqb. cbn [fst snd].
  rewrite andb_true_iff, ea_eq, eb_eq. split.
  - intros [-> ->]. reflexivity.
  - intros H. inversion H. auto.
Qed.

Lemma pair_leb_total (x y : A * B) :
  pair_leb ea la lb x y = true \/ pair_leb ea la lb y x = true.
Proof.
  destruct x as [x1 x2], y as [y1 y2]. unfold pair_leb. cbn [fst snd].
  destruct (ea x1 y1) eqn:E.
  - apply ea_eq in E. subst y1. rewrite ea_refl. apply lb_total.
  - rewrite ea_false; [apply la_total|].
    intros ->. rewrite ea_refl in E. discriminate.
Qed.

Lemma pair_leb_trans (x y z : A * B) :
  pair_leb ea la lb x y = true -> pair_leb ea la lb y z = true ->
  pair_leb ea la lb x z = true.
Proof.
  destruct x as [x1 x2], y as [y1 y2], z as [z1 z2].
  unfold pair_leb. cbn [fst snd].
  destruct (ea x1 y1) eqn:Exy; destruct (ea y1 z1) eqn:Eyz; intros H1 H2.
  - apply ea_eq in Exy, Eyz. subst. rewrite ea_refl.
    eapply lb_trans; eassumption.
  - apply ea_eq in Exy. subst. rewrite Eyz. exact H2.
  - apply ea_eq in Eyz. subst. rewrite Exy. exact H1.
  - destruct (ea x1 z1) eqn:Exz.
    + apply ea_eq in Exz. subst z1.
      rewrite (la_antisym x1 y1 H1 H2), ea_refl in Exy. discriminate.
    + eapply la_trans; eassumption.
Qed.

(** Along a list sorted by the pair order, first components ascend. *)
Lemma pair_leb_fst (x y : A * B) :
  pair_leb ea la lb x y = true -> la (fst x) (fst y) = true.
Proof.
  destruct x as [x1 x2], y as [y1 y2]. unfold pair_leb. cbn [fst snd].
  destruct (ea x1 y1) eqn:E; [|auto].
  apply ea_eq in E. subst. intros _.
  destruct (la_total y1 y1); assumption.
Qed.

End PairOrder.

Lemma Z_leb_antisym (x y : Z) : (x <=? y) = true -> (y <=? x) = true -> x = y.
Proof. rewrite !Z.leb_le. lia. Qed.

(* ================================================================== *)
(** * Payment trend, fare breakdown and borough shares                 *)
(* ================================================================== *)

Lemma strongly_sorted_map {A B : Type} (R : A -> A -> Prop) (S : B -> B -> Prop)
  (f : A -> B) (l : list A) :
  (forall x y, R x y -> S (f x) (f y)) ->
  StronglySorted R l -> StronglySorted S (map f l).
Proof.
  intros HRS. induction 1 as [|x l _ IH Hx]; simpl; constructor; [exact IH|].
  apply Forall_forall. intros y Hy. apply in_map_iff in Hy.
  destruct Hy as [z [<- Hz]]. rewrite Forall_forall in Hx. apply HRS, Hx, Hz.
Qed.

Lemma filter_split_perm {A : Type} (f : A -> bool) (l : list A) :
  Permutation (filter f l ++ filter (fun x => negb (f x)) l) l.
Proof.
  induction l as [|a l IH]; [constructor|].
  cbn [filter]. destruct (f a); cbn [negb].
  - cbn [app]. constructor. exact IH.
  - rewrite <- Permutation_middle. constructor. exact IH.
Qed.

Lemma filter_all {A : Type} (f : A -> bool) (l : list A) :
  Forall (fun x => f x = true) l -> filter f l = l.
Proof.
  induction 1 as [|a l Ha _ IH]; [reflexivity|].
  cbn [filter]. rewrite Ha, IH. reflexivity.
Qed.

Lemma filter_nothing {A : Type} (f : A -> bool) (l : list A) :
  Forall (fun x => f x = false) l -> filter f l = [].
Proof.
  induction 1 as [|a l Ha _ IH]; [reflexivity|].
  cbn [filter]. rewrite Ha. exact IH.
Qed.

Lemma filter_perm {A : Type} (f : A -> bool) (l1 l2 : list A) :
  Permutation l1 l2 -> Permutation (filter f l1) (filter f l2).
Proof.
  induction 1 as [|x l1 l2 _ IH|x y l|l1 l2 l3 _ IH1 _ IH2]; cbn [filter].
  - constructor.
  - destruct (f x); [constructor|]; exact IH.
  - destruct (f x); destruct (f y); try apply Permutation_refl. constructor.
  - eapply Permutation_trans; eassumption.
Qed.

Lemma sum_perm (l1 l2 : list Z) : Permutation l1 l2 -> I64.sum l1 = I64.sum l2.
Proof. intros H. rewrite !sum_wrap, (zsum_perm _ _ H). reflexivity. Qed.

Section GroupPoints.

Context {K R : Type}.
Variable eqb : K -> K -> bool.
Variable leb : K -> K -> bool.
Variable key : R -> option K.
Hypothesis eqb_eq : forall x y, eqb x y = true <-> x = y.

Lemma in_group_iff (k : K) (r : R) :
  in_group eqb key k r = true <-> key r = Some k.
Proof.
  unfold in_group. destruct (key r) as [k'|].
  - rewrite eqb_eq. split; congruence.
  - split; discriminate.
Qed.

(** The points of a grouped sum are exactly the totals of the keys. *)
Lemma groupby_points (f : R -> Z) (rows : list R) (k : K) (v : Z) :
  In (k, v) (map (fun g => (fst g, I64.sum (map f (snd g))))
                 (groupby eqb leb key rows))
  <-> total_of key f rows k v.
Proof.
  unfold total_of. split.
  - rewrite in_map_iff. intros [[k' g] [E Hg]]. cbn [fst snd] in E.
    injection E as -> <-.
    destruct (groupby_rows eqb leb key eqb_eq _ _ _ Hg) as [Hne _].
    unfold groupby in Hg. apply in_map_iff in Hg.
    destruct Hg as [k' [E _]]. injection E as -> <-.
    exists (filter (in_group eqb key k) rows),
           (filter (fun r => negb (in_group eqb key k r)) rows).
    split; [apply filter_split_perm|]. split; [|split; [|split]].
    + apply Forall_forall. intros r Hr. apply filter_In in Hr.
      apply in_group_iff, Hr.
    + apply Forall_forall. intros r Hr. apply filter_In in Hr.
      destruct Hr as [_ Hr]. intros Hk. apply in_group_iff in Hk.
      rewrite Hk in Hr. discriminate.
    + exact Hne.
    + reflexivity.
  - intros [g [rest [Hperm [Hg [Hrest [Hne ->]]]]]].
    assert (Hfg : Permutation g (filter (in_group eqb key k) rows)).
    { rewrite <- (filter_perm _ _ _ Hperm), filter_app.
      rewrite (filter_all _ g), (filter_nothing _ rest), app_nil_r.
      - apply Permutation_refl.
      - eapply Forall_impl; [|exact Hrest]. intros r Hr.
        destruct (in_group eqb key k r) eqn:E; [|reflexivity].
        apply in_group_iff in E. contradiction.
      - eapply Forall_impl; [|exact Hg]. intros r Hr.
        apply in_group_iff, Hr. }
    rewrite in_map_iff.
    exists (k, filter (in_group eqb key k) rows). cbn [fst snd]. split.
    + f_equal. apply sum_perm, Permutation_map, Permutation_sym, Hfg.
    + unfold groupby. apply in_map_iff. exists k. split; [reflexivity|].
      apply (group_keys_In eqb leb key eqb_eq).
      destruct g as [|r g']; [contradiction|].
      exists r. split.
      * apply (Permutation_in _ Hperm), in_or_app. left. left. reflexivity.
      * inversion Hg; assumption.
Qed.

End GroupPoints.

(** ** X2. The payment trend has one point per (calendar date, payment
    method) pair that some record carries, dates in ascending order, and the
    fare breakdown one leaf per (payment method, fare class) pair that some
    record carries; the value of a point is the ridership of the records
    that carry its pair, summed.  So a record with a blank key cell is
    counted in no point, and the values of each breakdown add up to the
    ridership of the records that have both key cells. *)
Theorem breakdowns_cover_keyed_records (main : frame RidershipRecord) :
  NoDup (map fst (values (payment_trends main)))
  /\ StronglySorted Z.le (map (fun e => fst (fst e)) (values (payment_trends main)))
  /\ (forall k v, In (k, v) (values (payment_trends main))
                  <-> total_of payment_key ridership (values main) k v)
  /\ I64.sum (map snd (values (payment_trends main)))
     = I64.sum (map ridership (filter (keyed payment_key) (values main)))
  /\ NoDup (map fst (values (fare_data main)))
  /\ (forall k v, In (k, v) (values (fare_data main))
                  <-> total_of fare_key ridership (values main) k v)
  /\ I64.sum (map snd (values (fare_data main)))
     = I64.sum (map ridership (filter (keyed fare_key) (values main))).
Proof.
  unfold payment_trends, fare_data. rewrite !values_range_index.
  assert (Hpe := pair_eqb_eq Z.eqb String.eqb Z.eqb_eq String.eqb_eq).
  split; [|split; [|split; [|split; [|split; [|split]]]]].
  - rewrite map_map. cbn [fst].
    rewrite (groupby_keys (pair_eqb Z.eqb String.eqb)).
    apply group_keys_NoDup, Hpe.
  - rewrite map_map. cbn [fst].
    rewrite <- (map_map fst fst).
    rewrite (groupby_keys (pair_eqb Z.eqb String.eqb)).
    apply (strongly_sorted_map (holds (pair_leb Z.eqb Z.leb String.leb))).
    + intros x y H. apply Z.leb_le.
      apply (pair_leb_fst Z.eqb Z.leb String.leb Z.eqb_eq Z_leb_total). exact H.
    + apply sort_sorted.
      * apply (pair_leb_total Z.eqb Z.leb String.leb Z.eqb_eq Z_leb_total
                 String.leb_total).
      * apply (pair_leb_trans Z.eqb Z.leb String.leb Z.eqb_eq Z_leb_trans
                 Z_leb_antisym string_leb_trans).
  - intros k v. apply groupby_points, Hpe.
  - rewrite map_map. cbn [snd]. apply groupby_sum_keyed, Hpe.
  - rewrite map_map. cbn [fst]. rewrite (groupby_keys key_eqb).
    apply group_keys_NoDup, key_eqb_eq.
  - intros k v. apply groupby_points, key_eqb_eq.
  - rewrite map_map. cbn [snd]. apply groupby_sum_keyed, key_eqb_eq.
Qed.

(** ** X3. The borough pie of the Overall view has one slice per borough of
    the station summary, in ascending order of name, and the slices add up
    to the total ridership of the stations. *)
Theorem borough_pie_slices (stations : frame StationSummary) :
  StronglySorted (fun a b => String.ltb a b = true)
                 (map fst (values (borough_ridership stations)))
  /\ (forall b, In b (map fst (values (borough_ridership stations)))
                <-> exists s, In s (values stations) /\ ss_borough s = b)
  /\ I64.sum (map snd (values (borough_ridership stations)))
     = I64.sum (map total_ridership (values stations)).
Proof.
  unfold borough_ridership. rewrite values_range_index.
  split; [|split].
  - rewrite map_map. cbn [fst]. rewrite (groupby_keys String.eqb).
    pose proof (group_keys_strictly_sorted String.eqb String.leb
                  (fun s => Some (ss_borough s)) String.eqb_eq
                  String.leb_total string_leb_trans (values stations)) as Hs.
    induction Hs as [|b bs _ IH Hb]; constructor; [exact IH|].
    eapply Forall_impl; [|exact Hb].
    intros b' [Hle Hne]. apply string_leb_neq_ltb; assumption.
  - intros b. rewrite map_map. cbn [fst]. rewrite (groupby_keys String.eqb).
    rewrite (group_keys_In String.eqb String.leb _ String.eqb_eq).
    split; intros [s [Hs Hb]]; exists s; (split; [exact Hs|]); congruence.
  - rewrite map_map. cbn [snd].
    rewrite (groupby_sum_keyed String.eqb String.leb _ String.eqb_eq).
    rewrite keyed_all; [reflexivity|]. intros s _. discriminate.
Qed.

(* ================================================================== *)
(** * Filtering before and after grouping                              *)
(* ================================================================== *)

Lemma filter_map_comm {A B : Type} (p : B -> bool) (f : A -> B) (l : list A) :
  filter p (map f l) = map f (filter (fun a => p (f a)) l).
Proof.
  induction l as [|a l IH]; [reflexivity|].
  cbn [map filter]. destruct (p (f a)); cbn [map]; rewrite IH; reflexivity.
Qed.

Lemma filter_comm {A : Type} (p q : A -> bool) (l : list A) :
  filter p (filter q l) = filter q (filter p l).
Proof.
  induction l as [|a l IH]; [reflexivity|].
  cbn [filter]. destruct (p a) eqn:Ep; destruct (q a) eqn:Eq;
    cbn [filter]; rewrite ?Ep, ?Eq, IH; reflexivity.
Qed.

Lemma filter_implied {A : Type} (p q : A -> bool) (l : list A) :
  (forall a, In a l -> p a = true -> q a = true) ->
  filter p (filter q l) = filter p l.
Proof.
  induction l as [|a l IH]; intros H; [reflexivity|].
  cbn [filter]. destruct (q a) eqn:Eq.
  - cbn [filter]. rewrite IH; [reflexivity|].
    intros b Hb. apply H. right. exact Hb.
  - destruct (p a) eqn:Ep.
    + rewrite (H a (or_introl eq_refl) Ep) in Eq. discriminate.
    + apply IH. intros b Hb. apply H. right. exact Hb.
Qed.

Lemma values_select {A : Type} (p : A -> bool) (df : frame A) :
  values (select p df) = filter p (values df).
Proof.
  unfold values, select. symmetry. apply filter_map_comm.
Qed.

Section FilterOrder.

Context {K : Type}.
Variable eqb : K -> K -> bool.
Variable leb : K -> K -> bool.
Variable p : K -> bool.
Hypothesis eqb_eq : forall x y, eqb x y = true <-> x = y.
Hypothesis leb_total : forall x y, leb x y = true \/ leb y x = true.
Hypothesis leb_trans : forall x y z,
    leb x y = true -> leb y z = true -> leb x z = true.

Lemma unique_filter (l : list K) :
  filter p (unique eqb l) = unique eqb (filter p l).
Proof.
  induction l as [|x l IH]; [reflexivity|].
  cbn [unique filter]. destruct (p x) eqn:Ex.
  - cbn [unique]. rewrite filter_comm, IH. reflexivity.
  - rewrite <- IH. apply filter_implied.
    intros y _ Hy. destruct (eqb y x) eqn:E; [|reflexivity].
    apply eqb_eq in E. subst y. congruence.
Qed.

Lemma insert_least (x : K) (l : list K) :
  Forall (fun z => leb x z = true) l -> insert leb x l = x :: l.
Proof.
  intros H. destruct l as [|y l]; [reflexivity|].
  cbn [insert]. inversion H as [|? ? Hy _]; subst. rewrite Hy. reflexivity.
Qed.

Lemma filter_insert (x : K) (l : list K) :
  StronglySorted (holds leb) l ->
  filter p (insert leb x l)
  = if p x then insert leb x (filter p l) else filter p l.
Proof.
  induction 1 as [|y l Hs IH Hy].
  - cbn [insert filter]. destruct (p x); reflexivity.
  - cbn [insert]. destruct (leb x y) eqn:Exy.
    + cbn [filter]. destruct (p x); [|reflexivity].
      change (if p y then y :: filter p l else filter p l)
        with (filter p (y :: l)).
      symmetry. apply insert_least.
      apply Forall_forall. intros z Hz. apply filter_In in Hz.
      destruct Hz as [[<- | Hz] _]; [exact Exy|].
      rewrite Forall_forall in Hy. eapply leb_trans; [exact Exy | apply Hy, Hz].
    + cbn [filter]. rewrite IH.
      destruct (p x); destruct (p y); try reflexivity.
      cbn [insert]. rewrite Exy. reflexivity.
Qed.

Lemma sort_filter (l : list K) :
  filter p (sort leb l) = sort leb (filter p l).
Proof.
  induction l as [|x l IH]; [reflexivity|].
  cbn [sort fold_right]. fold (sort leb l).
  rewrite filter_insert by (apply sort_sorted; assumption).
  cbn [filter]. rewrite IH. destruct (p x); reflexivity.
Qed.

End FilterOrder.

Section GroupByFilter.

Context {K R : Type}.
Variable eqb : K -> K -> bool.
Variable leb : K -> K -> bool.
Variable key : R -> option K.
(** A filter on the rows that only looks at the key: [q] on a row is [pk]
    on its key. *)
Variable q : R -> bool.
Variable pk : K -> bool.
Hypothesis eqb_eq : forall x y, eqb x y = true <-> x = y.
Hypothesis leb_total : forall x y, leb x y = true \/ leb y x = true.
Hypothesis leb_trans : forall x y z,
    leb x y = true -> leb y z = true -> leb x z = true.
Hypothesis q_key : forall r k, key r = Some k -> q r = pk k.

Lemma present_keys_filter (rows : list R) :
  present_keys key (filter q rows) = filter pk (present_keys key rows).
Proof.
  unfold present_keys. induction rows as [|r rows IH]; [reflexivity|].
  cbn [filter flat_map]. rewrite filter_app, <- IH.
  destruct (key r) as [k|] eqn:E.
  - cbn [filter]. rewrite <- (q_key r k E).
    destruct (q r); cbn [flat_map]; rewrite ?E; reflexivity.
  - destruct (q r); cbn [flat_map]; rewrite ?E; reflexivity.
Qed.

Lemma group_keys_filter (rows : list R) :
  group_keys eqb leb key (filter q rows)
  = filter pk (group_keys eqb leb key rows).
Proof.
  unfold group_keys.
  rewrite present_keys_filter, (sort_filter leb pk leb_total leb_trans).
  rewrite (unique_filter eqb pk eqb_eq). reflexivity.
Qed.

(** Grouping the filtered rows gives the groups whose key passes the
    filter, each with all its rows. *)
Lemma groupby_filter (rows : list R) :
  groupby eqb leb key (filter q rows)
  = filter (fun g => pk (fst g)) (groupby eqb leb key rows).
Proof.
  unfold groupby. rewrite group_keys_filter, filter_map_comm. cbn [fst].
  apply map_ext_in. intros k Hk. apply filter_In in Hk. destruct Hk as [_ Hk].
  f_equal. apply filter_implied.
  intros r _ Hr. unfold in_group in Hr.
  destruct (key r) as [k'|] eqn:E; [|discriminate].
  apply eqb_eq in Hr. subst k'. rewrite (q_key r k E). exact Hk.
Qed.

End GroupByFilter.

Lemma station_key_borough (sel : cell) (r : RidershipRecord) (k : string * string) :
  station_key r = Some k ->
  cell_eqb (borough r) sel = cell_eqb (Some (snd k)) sel.
Proof.
  destruct k as [s b]. intros H. apply station_key_Some in H.
  destruct H as [_ ->]. reflexivity.
Qed.

(** Filtering the summary by a borough and summarising the records of that
    borough give the same rows. *)
Lemma summary_of_filtered_records (sel : cell) (df : frame RidershipRecord) :
  values (filter_summaries sel (create_station_summary df))
  = values (create_station_summary (filter_records sel df)).
Proof.
  unfold filter_summaries, filter_records.
  rewrite values_select, !summary_values, values_select.
  rewrite (groupby_filter key_eqb key_leb station_key
             (fun r => cell_eqb (borough r) sel)
             (fun k => cell_eqb (Some (snd k)) sel)
             key_eqb_eq key_leb_total key_leb_trans (station_key_borough sel)).
  rewrite filter_map_comm. reflexivity.
Qed.

(** ** X4. Under every selection the station frame handed to the charts
    is, row for row, the station summary of the filtered records:
    filtering the summary and summarising the filtered records agree (up to
    the index labels, which the filtered summary keeps). *)
Theorem view_summary_is_summary_of_view (sel : cell) (df : frame RidershipRecord) :
  values (station_df (filter_view sel df (create_station_summary df)))
  = values (create_station_summary
              (main_df (filter_view sel df (create_station_summary df)))).
Proof.
  unfold filter_view. destruct (cell_eqb sel OVERALL); cbn [station_df main_df].
  - reflexivity.
  - apply summary_of_filtered_records.
Qed.

Lemma valid_records_select (p : RidershipRecord -> bool)
  (df : frame RidershipRecord) :
  valid_records df -> valid_records (select p df).
Proof.
  unfold valid_records. rewrite values_select, !Forall_forall.
  intros H r Hr. apply filter_In in Hr. apply H, Hr.
Qed.

Lemma summary_column_sum (f : RidershipRecord -> Z) (g : StationSummary -> Z)
  (df : frame RidershipRecord) :
  (forall grp, g (summary_row grp) = I64.sum (map f (snd grp))) ->
  valid_records df ->
  I64.sum (map g (values (create_station_summary df)))
  = I64.sum (map f (values df)).
Proof.
  intros Hg Hvalid. rewrite summary_values, map_map.
  rewrite (map_ext _ _ Hg).
  apply (groupby_sum key_eqb key_leb station_key key_eqb_eq f).
  apply valid_records_keyed, Hvalid.
Qed.

(** ** X5. For a record set in which every record has a station and a
    borough, and under every selection, the totals of the station frame
    agree with the filtered records: its [total_ridership] column sums to
    the "Total Ridership" card, and the "Total Transfers" card, which is
    summed from the station frame, is the sum of [transfers] over the
    filtered records. *)
Theorem station_totals_match_filtered_records (sel : cell)
  (df : frame RidershipRecord) :
  valid_records df ->
  let v := filter_view sel df (create_station_summary df) in
  I64.sum (map total_ridership (values (station_df v)))
  = I64.sum (map ridership (values (main_df v)))
  /\ I64.sum (map total_transfers (values (station_df v)))
     = I64.sum (map transfers (values (main_df v))).
Proof.
  intros Hvalid v. subst v.
  assert (Hv : valid_records
                 (main_df (filter_view sel df (create_station_summary df)))).
  { unfold filter_view. destruct (cell_eqb sel OVERALL); cbn [main_df];
      [exact Hvalid | apply valid_records_select, Hvalid]. }
  assert (Hs : values (station_df (filter_view sel df (create_station_summary df)))
               = values (create_station_summary
                           (main_df (filter_view sel df
                                       (create_station_summary df))))).
  { unfold filter_view. destruct (cell_eqb sel OVERALL);
      cbn [station_df main_df];
      [reflexivity | apply summary_of_filtered_records]. }
  rewrite Hs. split.
  - apply (summary_column_sum ridership total_ridership); [reflexivity | exact Hv].
  - apply (summary_column_sum transfers total_transfers); [reflexivity | exact Hv].
Qed.

(** Queens in the three-row scenario: 12 riders and 3 transfers. *)
Lemma station_totals_match_filtered_records_witness :
  valid_records (loaded three_rows)
  /\ I64.sum (map total_transfers
                (values (station_df
                           (filter_view (Some "Queens") (loaded three_rows)
                              (create_station_summary (loaded three_rows))))))
     = I64.sum (map transfers
                  (values (main_df
                             (filter_view (Some "Queens") (loaded three_rows)
                                (create_station_summary (loaded three_rows)))))).
Proof.
  assert (Hv : valid_records (loaded three_rows)).
  { repeat constructor; simpl; discriminate. }
  split; [exact Hv|].
  apply (station_totals_match_filtered_records (Some "Queens")
           (loaded three_rows) Hv).
Defined.

(* ================================================================== *)
(** * What the argmax cards and the top-N charts pick                  *)
(* ================================================================== *)

(** With labels that identify rows, each argmax card is made from a row
    that holds the maximum of its column. *)
Lemma key_metrics_argmax (v : View) (line : frame (Timestamp * Z)) :
  NoDup (labels line) -> NoDup (labels (station_df v)) ->
  exists cards,
    key_metrics v line = Ok cards
    /\ (forall c, In c cards -> metric_label c = "Busiest Station" ->
          exists row,
            In row (station_df v)
            /\ c = busiest_station_card (snd row)
            /\ Forall (fun r => total_ridership (snd r)
                                <= total_ridership (snd row)) (station_df v))
    /\ (forall c, In c cards -> metric_label c = "Busiest Day" ->
          exists row,
            In row line
            /\ c = busiest_day_card (snd row)
            /\ Forall (fun r => snd (snd r) <= snd (snd row)) line).
Proof.
  intros Hl Hs. unfold key_metrics.
  destruct (empty line) eqn:El; destruct (empty (station_df v)) eqn:Es;
    cbn [negb bind].
  - eexists. split; [reflexivity|].
    split; intros c Hc Hlab; simpl in Hc;
      repeat (destruct Hc as [<- | Hc]; [discriminate Hlab|]); contradiction.
  - apply empty_false in Es.
    destruct (idxmax_loc total_ridership _ Es) as [j [b [Hj [Hb _]]]].
    destruct (idxmax_loc_max total_ridership _ j b Hs Hj Hb) as [Hin Hmax].
    rewrite Hj. cbn [bind]. rewrite Hb. cbn [bind].
    eexists. split; [reflexivity|].
    split; intros c Hc Hlab; simpl in Hc;
      repeat (destruct Hc as [<- | Hc]; [try discriminate Hlab|]);
      try contradiction.
    exists (j, b). auto.
  - apply empty_false in El.
    destruct (idxmax_loc snd _ El) as [i [a [Hi [Ha _]]]].
    destruct (idxmax_loc_max snd _ i a Hl Hi Ha) as [Hin Hmax].
    rewrite Hi. cbn [bind]. rewrite Ha. cbn [bind].
    eexists. split; [reflexivity|].
    split; intros c Hc Hlab; simpl in Hc;
      repeat (destruct Hc as [<- | Hc]; [try discriminate Hlab|]);
      try contradiction.
    exists (i, a). auto.
  - apply empty_false in El. apply empty_false in Es.
    destruct (idxmax_loc snd _ El) as [i [a [Hi [Ha _]]]].
    destruct (idxmax_loc_max snd _ i a Hl Hi Ha) as [Hina Hmaxa].
    destruct (idxmax_loc total_ridership _ Es) as [j [b [Hj [Hb _]]]].
    destruct (idxmax_loc_max total_ridership _ j b Hs Hj Hb) as [Hinb Hmaxb].
    rewrite Hi. cbn [bind]. rewrite Ha. cbn [bind].
    rewrite Hj. cbn [bind]. rewrite Hb. cbn [bind].
    eexists. split; [reflexivity|].
    split; intros c Hc Hlab; simpl in Hc;
      repeat (destruct Hc as [<- | Hc]; [try discriminate Hlab|]);
      try contradiction.
    + exists (j, b). auto.
    + exists (i, a). auto.
Qed.

Lemma view_station_labels_NoDup (sel : cell) (df : frame RidershipRecord) :
  NoDup (labels (station_df (filter_view sel df (create_station_summary df)))).
Proof.
  unfold filter_view. destruct (cell_eqb sel OVERALL); cbn [station_df].
  - apply range_index_labels_NoDup.
  - apply select_labels_NoDup, range_index_labels_NoDup.
Qed.

(** ** X6. Under every selection, when the "Busiest Station" card is shown
    it names a row of the filtered station frame whose [total_ridership] no
    other row of that frame exceeds, and shows that total. *)
Theorem busiest_station_card_is_largest (sel : cell) (df : frame RidershipRecord) :
  let v := filter_view sel df (create_station_summary df) in
  exists cards,
    key_metrics v (line_data_to_plot (main_df v)) = Ok cards
    /\ forall c, In c cards -> metric_label c = "Busiest Station" ->
         exists row,
           In row (station_df v)
           /\ c = busiest_station_card (snd row)
           /\ Forall (fun r => total_ridership (snd r)
                               <= total_ridership (snd row)) (station_df v).
Proof.
  intros v.
  destruct (key_metrics_argmax v (line_data_to_plot (main_df v)))
    as [cards [Hk [Hs _]]].
  - apply range_index_labels_NoDup.
  - apply view_station_labels_NoDup.
  - exists cards. split; assumption.
Qed.

(** ** X7. Under every selection, when the "Busiest Day" card is shown it is
    read from a point of the hourly series whose total no other point
    exceeds: it shows the date of that timestamp and that timestamp's
    total ridership. *)
Theorem busiest_day_card_is_largest_hourly_total (sel : cell)
  (df : frame RidershipRecord) :
  let v := filter_view sel df (create_station_summary df) in
  exists cards,
    key_metrics v (line_data_to_plot (main_df v)) = Ok cards
    /\ forall c, In c cards -> metric_label c = "Busiest Day" ->
         exists row,
           In row (line_data_to_plot (main_df v))
           /\ c = mkMetric "Busiest Day" (strftime_date (fst (snd row)))
                    (Some (Int (snd (snd row))))
           /\ Forall (fun r => snd (snd r) <= snd (snd row))
                     (line_data_to_plot (main_df v)).
Proof.
  intros v.
  destruct (key_metrics_argmax v (line_data_to_plot (main_df v)))
    as [cards [Hk [_ Hd]]].
  - apply range_index_labels_NoDup.
  - apply view_station_labels_NoDup.
  - exists cards. split; assumption.
Qed.

Lemma strongly_sorted_app {A : Type} (R : A -> A -> Prop) (l1 l2 : list A) :
  StronglySorted R (l1 ++ l2) ->
  StronglySorted R l1 /\ forall x y, In x l1 -> In y l2 -> R x y.
Proof.
  induction l1 as [|a l1 IH]; cbn [app]; intros H.
  - split; [constructor | contradiction].
  - inversion H as [|? ? Hs Ha]; subst. destruct (IH Hs) as [Hs1 Hcross].
    rewrite Forall_forall in Ha. split.
    + constructor; [exact Hs1|]. apply Forall_forall. intros x Hx.
      apply Ha, in_app_iff. left. exact Hx.
    + intros x y [<- | Hx] Hy; [|apply Hcross; assumption].
      apply Ha, in_app_iff. right. exact Hy.
Qed.

Lemma nlargest_takes_largest {A : Type} (col : A -> Z) (n : nat) (df : frame A) :
  takes_largest col n df (nlargest col n df).
Proof.
  unfold takes_largest, nlargest.
  set (sorted := sort (fun x y => col (snd y) <=? col (snd x)) df).
  assert (Hsorted : StronglySorted (fun x y => col (snd y) <= col (snd x)) sorted).
  { pose proof (sort_sorted (fun x y : nat * A => col (snd y) <=? col (snd x))
                  (fun x y => Z_leb_total (col (snd y)) (col (snd x)))
                  (fun x y z H1 H2 =>
                     Z_leb_trans (col (snd z)) (col (snd y)) (col (snd x)) H2 H1)
                  df) as Hs.
    fold sorted in Hs. clearbody sorted.
    induction Hs as [|x l _ IH Hx]; constructor; [exact IH|].
    eapply Forall_impl; [|exact Hx]. intros y Hy. apply Z.leb_le. exact Hy. }
  rewrite <- (firstn_skipn n sorted) in Hsorted.
  apply strongly_sorted_app in Hsorted. destruct Hsorted as [Htop Hcross].
  split; [|split; [exact Htop|]].
  - rewrite length_firstn. unfold sorted. rewrite sort_length. reflexivity.
  - exists (skipn n sorted). split.
    + rewrite firstn_skipn. apply sort_perm.
    + intros x y Hx Hy. apply (Hcross x y Hx Hy).
Qed.

(** ** X8. Each top-N selection of the page takes the largest rows of the
    filtered station frame: the ten stations by [total_ridership], the ten
    by [total_transfers] and the five of the borough pie are as many rows
    as the frame has, up to N, listed largest first, and no station left
    out has a larger value than a station taken. *)
Theorem top_n_blocks_take_the_largest (v : View) :
  takes_largest total_ridership 10 (station_df v) (top_10_stations v)
  /\ takes_largest total_transfers 10 (station_df v) (top_10_transfers v)
  /\ takes_largest total_ridership 5 (station_df v) (top_stations_in_borough v).
Proof.
  split; [|split]; apply nlargest_takes_largest.
Qed.

(** ** X9. Whenever the page renders, each of its two bar charts is given
    the rows of its top-10 selection, at most ten, ordered by ascending
    value; and when the view has fewer than ten stations, the rows of each
    chart are all the stations of the view. *)
Theorem bar_charts_ascend (draw : chart -> result unit)
  (df : frame RidershipRecord) (ss : frame StationSummary) (sel : cell)
  (p : Page) :
  render draw df ss sel = Ok p ->
  Permutation (page_top_stations p) (top_10_stations (page_view p))
  /\ StronglySorted (fun x y => total_ridership (snd x) <= total_ridership (snd y))
                    (page_top_stations p)
  /\ (List.length (page_top_stations p) <= 10)%nat
  /\ Permutation (page_top_transfers p) (top_10_transfers (page_view p))
  /\ StronglySorted (fun x y => total_transfers (snd x) <= total_transfers (snd y))
                    (page_top_transfers p)
  /\ (List.length (page_top_transfers p) <= 10)%nat
  /\ ((List.length (station_df (page_view p)) < 10)%nat ->
      Permutation (page_top_stations p) (station_df (page_view p))
      /\ Permutation (page_top_transfers p) (station_df (page_view p))).
Proof.
  intros H. apply render_inv in H. destruct H as [_ [cards [_ ->]]].
  cbn [page_top_stations page_top_transfers page_view].
  assert (Hasc : forall (col : StationSummary -> Z) (l : frame StationSummary),
             StronglySorted (fun x y => col (snd x) <= col (snd y))
                            (sort_values col l)).
  { intros col l.
    pose proof (sort_sorted (fun x y : nat * StationSummary =>
                               col (snd x) <=? col (snd y))
                  (fun x y => Z_leb_total (col (snd x)) (col (snd y)))
                  (fun x y z => Z_leb_trans (col (snd x)) (col (snd y))
                                            (col (snd z))) l) as Hs.
    unfold sort_values.
    induction Hs as [|x l' _ IH Hx]; constructor; [exact IH|].
    eapply Forall_impl; [|exact Hx]. intros y Hy. apply Z.leb_le. exact Hy. }
  assert (Hlen : forall (col : StationSummary -> Z) (l : frame StationSummary),
             (List.length (sort_values col (nlargest col 10 l)) <= 10)%nat).
  { intros col l. unfold sort_values, nlargest.
    rewrite sort_length, length_firstn. apply Nat.le_min_l. }
  split; [apply sort_values_perm|]. split; [apply Hasc|].
  split; [apply Hlen|]. split; [apply sort_values_perm|].
  split; [apply Hasc|]. split; [apply Hlen|].
  intros Hfew. split.
  - rewrite sort_values_perm. apply nlargest_all. lia.
  - rewrite sort_values_perm. apply nlargest_all. lia.
Qed.

(** The three-row data set under the Overall selection: two bars. *)
Lemma bar_charts_ascend_witness :
  exists p,
    render plotly_draw (loaded three_rows)
      (create_station_summary (loaded three_rows)) OVERALL = Ok p
    /\ StronglySorted
         (fun x y => total_ridership (snd x) <= total_ridership (snd y))
         (page_top_stations p)
    /\ map (fun row => total_ridership (snd row)) (page_top_stations p)
       = [3; 12].
Proof.
  eexists. split; [reflexivity|]. split; [|reflexivity].
  exact (proj1 (proj2 (bar_charts_ascend plotly_draw (loaded three_rows)
                         (create_station_summary (loaded three_rows)) OVERALL
                         _ eq_refl))).
Defined.

(* ================================================================== *)
(** * The cells of the weekly heat map                                 *)
(* ================================================================== *)

Section PositionFacts.

Context {K : Type}.
Variable eqb : K -> K -> bool.
Hypothesis eqb_eq : forall x y, eqb x y = true <-> x = y.

Lemma position_nth_map {B : Type} (f : K -> B) (d : B) (x : K) (l : list K)
  (i : nat) :
  position eqb x l = Some i -> nth i (map f l) d = f x.
Proof.
  revert i. induction l as [|y l IH]; intros i; cbn [position]; [discriminate|].
  destruct (eqb y x) eqn:E.
  - intros H. injection H as <-. apply eqb_eq in E. subst. reflexivity.
  - destruct (position eqb x l) as [i'|]; [|discriminate].
    cbn [option_map]. intros H. injection H as <-. cbn [map nth].
    apply IH. reflexivity.
Qed.

Lemma position_None (x : K) (l : list K) :
  position eqb x l = None <-> ~ In x l.
Proof.
  induction l as [|y l IH]; cbn [position In]; [tauto|].
  destruct (eqb y x) eqn:E.
  - apply eqb_eq in E. subst. split; [discriminate | tauto].
  - destruct (position eqb x l) as [i|]; cbn [option_map].
    + split; [discriminate|]. intros H. exfalso.
      assert (Hin : ~ In x l) by tauto.
      apply IH in Hin. discriminate.
    + split; [|reflexivity]. intros _ [H | H].
      * subst. rewrite (eqb_refl_true eqb eqb_eq) in E. discriminate.
      * apply (proj1 IH eq_refl H).
Qed.

(** Looking a key up in a table built from a list of keys. *)
Lemma find_keyed {B : Type} (f : K -> B) (k : K) (ks : list K) :
  find (fun e => eqb (fst e) k) (map (fun k' => (k', f k')) ks)
  = if existsb (fun k' => eqb k' k) ks then Some (k, f k) else None.
Proof.
  induction ks as [|k' ks IH]; [reflexivity|].
  cbn [map find existsb fst]. destruct (eqb k' k) eqn:E.
  - apply eqb_eq in E. subst. reflexivity.
  - cbn [orb]. exact IH.
Qed.

Lemma existsb_In (k : K) (ks : list K) :
  existsb (fun k' => eqb k' k) ks = true <-> In k ks.
Proof.
  rewrite existsb_exists. split.
  - intros [k' [Hin E]]. apply eqb_eq in E. subst. exact Hin.
  - intros Hin. exists k. split; [exact Hin | apply eqb_eq; reflexivity].
Qed.

End PositionFacts.

Lemma day_name_in_order (t : Timestamp) : In (Calendar.day_name t) day_order.
Proof.
  unfold Calendar.day_name, day_order.
  repeat match goal with
         | |- context [if ?c then _ else _] => destruct c
         end; simpl; tauto.
Qed.

Lemma weekly_pair_eqb_eq (x y : string * Z) :
  pair_eqb String.eqb Z.eqb x y = true <-> x = y.
Proof. apply pair_eqb_eq; [apply String.eqb_eq | apply Z.eqb_eq]. Qed.

Lemma heatmap_keys (main : frame RidershipRecord) :
  map fst (heatmap_data main)
  = group_keys (pair_eqb String.eqb Z.eqb)
               (pair_leb String.eqb String.leb Z.leb) weekly_key (values main).
Proof.
  unfold heatmap_data. rewrite map_map. cbn [fst]. apply groupby_keys.
Qed.

(** An entry of [heatmap_data] is the mean of the records of its cell, and
    there is an entry exactly for the cells that have records. *)
Lemma heatmap_lookup (main : frame RidershipRecord) (d : string) (h : Z) :
  lookup_cell (heatmap_data main) d h
  = match records_at d h main with
    | [] => None
    | g => Some (F64.group_mean_int (map ridership g))
    end.
Proof.
  unfold lookup_cell, heatmap_data, groupby. rewrite map_map. cbn [fst snd].
  rewrite (find_keyed (pair_eqb String.eqb Z.eqb) weekly_pair_eqb_eq
             (fun k => F64.group_mean_int
                         (map ridership
                              (filter (in_group (pair_eqb String.eqb Z.eqb)
                                                weekly_key k) (values main))))).
  fold (records_at d h main).
  destruct (existsb _ _) eqn:E.
  - apply (existsb_In _ weekly_pair_eqb_eq) in E.
    apply (group_keys_In _ _ _ weekly_pair_eqb_eq) in E.
    destruct E as [r [Hr Hk]].
    assert (Hin : In r (records_at d h main)).
    { unfold records_at. apply filter_In. split; [exact Hr|].
      unfold in_group. rewrite Hk. apply weekly_pair_eqb_eq. reflexivity. }
    cbn [option_map snd]. destruct (records_at d h main); [contradiction|].
    reflexivity.
  - cbn [option_map]. destruct (records_at d h main) as [|r g] eqn:Eg;
      [reflexivity|]. exfalso.
    assert (Hin : In r (records_at d h main)) by (rewrite Eg; left; reflexivity).
    unfold records_at in Hin. apply filter_In in Hin. destruct Hin as [Hr Hg].
    unfold in_group in Hg. destruct (weekly_key r) as [k|] eqn:Ek; [|discriminate].
    apply weekly_pair_eqb_eq in Hg. subst k.
    assert (Hex : existsb (fun k' => pair_eqb String.eqb Z.eqb k' (d, h))
                    (group_keys (pair_eqb String.eqb Z.eqb)
                       (pair_leb String.eqb String.leb Z.leb) weekly_key
                       (values main)) = true).
    { apply (existsb_In _ weekly_pair_eqb_eq).
      apply (group_keys_In _ _ _ weekly_pair_eqb_eq). exists r. auto. }
    rewrite Hex in E. discriminate.
Qed.

(** A cell of the re-indexed table is the entry of the long table when the
    table has the row and both column lists have the column. *)
Lemma pivot_at_reindex (data : list ((string * Z) * float))
  (columns : list string) (h : Z) (d : string) :
  pivot_at (reindex_columns columns (pivot data)) h d
  = match position Z.eqb h (pivot_index (pivot data)),
          position String.eqb d columns,
          position String.eqb d (pivot_columns (pivot data)) with
    | Some _, Some _, Some _ => lookup_cell data d h
    | _, _, _ => None
    end.
Proof.
  unfold pivot_at, reindex_columns, pivot.
  cbn [pivot_index pivot_columns pivot_cells].
  set (index := sort Z.leb (unique Z.eqb (map (fun e => snd (fst e)) data))).
  set (cols := sort String.leb
                 (unique String.eqb (map (fun e => fst (fst e)) data))).
  destruct (position Z.eqb h index) as [i|] eqn:Ei; [|reflexivity].
  destruct (position String.eqb d columns) as [j|] eqn:Ej; [|reflexivity].
  rewrite map_map.
  rewrite (position_nth_map Z.eqb Z.eqb_eq _ [] h index i Ei).
  rewrite (position_nth_map String.eqb String.eqb_eq _ None d columns j Ej).
  destruct (position String.eqb d cols) as [j'|] eqn:Ej'; [|reflexivity].
  apply (position_nth_map String.eqb String.eqb_eq
           (fun d' => lookup_cell data d' h) None d cols j' Ej').
Qed.

Lemma records_at_key (d : string) (h : Z) (main : frame RidershipRecord)
  (r : RidershipRecord) :
  In r (records_at d h main) ->
  In r (values main) /\ weekly_key r = Some (d, h).
Proof.
  unfold records_at. rewrite filter_In. intros [Hr Hg]. split; [exact Hr|].
  unfold in_group in Hg. destruct (weekly_key r) as [k|]; [|discriminate].
  apply weekly_pair_eqb_eq in Hg. congruence.
Qed.

(** ** X10. Every cell of the weekly heat map is the mean ridership of the
    filtered records that fall on that day of the week and in that hour, and
    a cell for which there is no such record is missing, not zero. *)
Theorem heatmap_cell_is_mean_of_its_records (main : frame RidershipRecord)
  (h : Z) (d : string) :
  pivot_at (heatmap_pivot main) h d
  = match records_at d h main with
    | [] => None
    | g => Some (F64.group_mean_int (map ridership g))
    end.
Proof.
  unfold heatmap_pivot. rewrite pivot_at_reindex, <- heatmap_lookup.
  destruct (lookup_cell (heatmap_data main) d h) as [x|] eqn:El;
    [|repeat match goal with
             | |- context [match ?p with Some _ => _ | None => _ end] =>
                 destruct p
             end; reflexivity].
  (* the entry exists: the table has its row and its column *)
  assert (Hkey : In (d, h) (map fst (heatmap_data main))).
  { unfold lookup_cell in El.
    destruct (find _ (heatmap_data main)) as [e|] eqn:Ef; [|discriminate].
    apply find_some in Ef. destruct Ef as [He Heq].
    apply weekly_pair_eqb_eq in Heq. rewrite <- Heq. apply in_map. exact He. }
  assert (Hrec : exists r, In r (values main) /\ weekly_key r = Some (d, h)).
  { rewrite heatmap_keys in Hkey.
    apply (group_keys_In _ _ _ weekly_pair_eqb_eq) in Hkey. exact Hkey. }
  assert (Hh : position Z.eqb h (pivot_index (pivot (heatmap_data main))) <> None).
  { rewrite (position_None Z.eqb Z.eqb_eq). intros Hn. apply Hn.
    cbn [pivot pivot_index]. apply sort_In, (unique_In Z.eqb Z.eqb_eq).
    apply in_map_iff in Hkey. destruct Hkey as [e [He Hin]].
    apply in_map_iff. exists e. rewrite He. auto. }
  assert (Hd : position String.eqb d (pivot_columns (pivot (heatmap_data main)))
               <> None).
  { rewrite (position_None String.eqb String.eqb_eq). intros Hn. apply Hn.
    cbn [pivot pivot_columns]. apply sort_In, (unique_In String.eqb String.eqb_eq).
    apply in_map_iff in Hkey. destruct Hkey as [e [He Hin]].
    apply in_map_iff. exists e. rewrite He. auto. }
  assert (Hday : position String.eqb d day_order <> None).
  { rewrite (position_None String.eqb String.eqb_eq). intros Hn. apply Hn.
    destruct Hrec as [r [_ Hk]]. unfold weekly_key in Hk.
    destruct (transit_timestamp r) as [t|]; [|discriminate].
    injection Hk as <- _. apply day_name_in_order. }
  destruct (position Z.eqb h _); [|congruence].
  destruct (position String.eqb d day_order); [|congruence].
  destruct (position String.eqb d _); [|congruence].
  reflexivity.
Qed.

Lemma hour_range (t : Timestamp) : 0 <= Calendar.hour t < 24.
Proof. unfold Calendar.hour. apply Z.mod_pos_bound. lia. Qed.

(** ** X11. The weekly heat map always has the seven columns Monday to
    Sunday, in that order; its rows are the hours of day observed in the
    filtered records, each between 0 and 23, in strictly ascending order;
    and every row has seven cells. *)
Theorem heatmap_shape (main : frame RidershipRecord) :
  pivot_columns (heatmap_pivot main) = day_order
  /\ StronglySorted Z.lt (pivot_index (heatmap_pivot main))
  /\ (forall h, In h (pivot_index (heatmap_pivot main))
                <-> exists r t, In r (values main)
                                /\ transit_timestamp r = Some t
                                /\ Calendar.hour t = h)
  /\ (forall h, In h (pivot_index (heatmap_pivot main)) -> 0 <= h < 24)
  /\ List.length (pivot_cells (heatmap_pivot main))
     = List.length (pivot_index (heatmap_pivot main))
  /\ Forall (fun row => List.length row = 7%nat) (pivot_cells (heatmap_pivot main)).
Proof.
  assert (Hidx : forall h, In h (pivot_index (heatmap_pivot main))
                           <-> exists r t, In r (values main)
                                           /\ transit_timestamp r = Some t
                                           /\ Calendar.hour t = h).
  { intros h. cbn [heatmap_pivot reindex_columns pivot pivot_index].
    rewrite sort_In, (unique_In Z.eqb Z.eqb_eq).
    rewrite <- (map_map fst snd), heatmap_keys, in_map_iff. split.
    - intros [[d' h'] [Hh Hk]]. cbn [snd] in Hh. subst h'.
      apply (group_keys_In _ _ _ weekly_pair_eqb_eq) in Hk.
      destruct Hk as [r [Hr Hk]]. unfold weekly_key in Hk.
      destruct (transit_timestamp r) as [t|] eqn:Et; [|discriminate].
      injection Hk as _ Hh. exists r, t. auto.
    - intros [r [t [Hr [Ht Hh]]]]. exists (Calendar.day_name t, h).
      split; [reflexivity|].
      apply (group_keys_In _ _ _ weekly_pair_eqb_eq). exists r.
      split; [exact Hr|]. unfold weekly_key. rewrite Ht, Hh. reflexivity. }
  split; [reflexivity|]. split; [|split; [exact Hidx|split; [|split]]].
  - cbn [heatmap_pivot reindex_columns pivot pivot_index].
    pose proof (sorted_nodup_strict _ _
                  (sort_sorted Z.leb Z_leb_total Z_leb_trans
                     (unique Z.eqb (map (fun e => snd (fst e)) (heatmap_data main))))
                  (sort_NoDup Z.leb _ (unique_NoDup Z.eqb Z.eqb_eq _))) as Hs.
    induction Hs as [|x l _ IH Hx]; constructor; [exact IH|].
    eapply Forall_impl; [|exact Hx].
    intros y [Hle Hne]. apply Z.leb_le in Hle. lia.
  - intros h Hh. apply Hidx in Hh. destruct Hh as [r [t [_ [_ <-]]]].
    apply hour_range.
  - cbn [heatmap_pivot reindex_columns pivot pivot_index pivot_cells].
    rewrite !length_map. reflexivity.
  - cbn [heatmap_pivot reindex_columns pivot pivot_cells].
    apply Forall_forall. intros row Hrow. apply in_map_iff in Hrow.
    destruct Hrow as [row0 [<- _]]. rewrite length_map. reflexivity.
Qed.

(* ================================================================== *)
(** * The sidebar and selections that match nothing                    *)
(* ================================================================== *)

Lemma filter_split {A : Type} (f : A -> bool) (u l1 l2 : list A) (a : A) :
  filter f u = (l1 ++ a :: l2)%list ->
  exists u1 u2,
    u = (u1 ++ a :: u2)%list /\ filter f u1 = l1 /\ filter f u2 = l2.
Proof.
  revert l1. induction u as [|y u IH]; intros l1 H; cbn [filter] in H.
  - destruct l1; discriminate H.
  - destruct (f y) eqn:Ey.
    + destruct l1 as [|x l1]; cbn [app] in H; injection H as -> H.
      * exists [], u. repeat split. exact H.
      * destruct (IH l1 H) as [u1 [u2 [-> [H1 H2]]]].
        exists (x :: u1), u2. split; [reflexivity|]. split; [|exact H2].
        cbn [filter]. rewrite Ey, H1. reflexivity.
    + destruct (IH l1 H) as [u1 [u2 [-> [H1 H2]]]].
      exists (y :: u1), u2. split; [reflexivity|]. split; [|exact H2].
      cbn [filter]. rewrite Ey. exact H1.
Qed.

(** [unique] lists the values by first appearance. *)
Lemma unique_first_before {K : Type} (eqb : K -> K -> bool)
  (eqb_eq : forall x y, eqb x y = true <-> x = y)
  (l l1 l2 : list K) (a b : K) :
  unique eqb l = (l1 ++ a :: l2)%list -> In b l2 -> first_before a b l.
Proof.
  revert l1 l2. induction l as [|x l IH]; intros l1 l2 H Hb; cbn [unique] in H.
  - destruct l1; discriminate H.
  - destruct l1 as [|y l1]; cbn [app] in H; injection H as -> H.
    + exists [], l. repeat split; intros [].
    + destruct (filter_split _ _ _ _ _ H) as [u1 [u2 [Hu [_ H2]]]].
      assert (Hb' : In b u2).
      { rewrite <- H2 in Hb. apply filter_In in Hb. apply Hb. }
      destruct (IH u1 u2 Hu Hb') as [pre [post [-> [Ha Hbp]]]].
      assert (Hax : a <> y /\ b <> y).
      { split.
        - assert (Hin : In a (filter (fun z => negb (eqb z y)) (unique eqb (pre ++ a :: post)))).
          { rewrite H. apply in_or_app. right. left. reflexivity. }
          apply filter_In in Hin. destruct Hin as [_ Hn].
          intros ->. rewrite (proj2 (eqb_eq y y) eq_refl) in Hn. discriminate.
        - rewrite <- H2 in Hb. apply filter_In in Hb. destruct Hb as [_ Hn].
          intros ->. rewrite (proj2 (eqb_eq y y) eq_refl) in Hn. discriminate. }
      exists (y :: pre), post. split; [reflexivity|].
      split; intros [E | Hin]; try contradiction;
        destruct Hax as [Hay Hby]; congruence.
Qed.

(** ** X14. The select box offers "Overall" first and then every distinct
    value of the borough column exactly once, in the order in which the
    values first appear in the data: whenever an entry comes before
    another, the column reaches the first of the two before it reaches the
    other.  A blank borough cell contributes the missing value as one more
    entry. *)
Theorem sidebar_offers_each_borough_once (df : frame RidershipRecord) :
  exists boroughs,
    borough_list df = OVERALL :: boroughs
    /\ NoDup boroughs
    /\ (forall c, In c boroughs
                  <-> exists r, In r (values df) /\ borough r = c)
    /\ (forall before a after b,
          boroughs = (before ++ a :: after)%list -> In b after ->
          first_before a b (map borough (values df))).
Proof.
  exists (unique cell_same (map borough (values df))).
  split; [reflexivity|]. split; [apply unique_NoDup, cell_same_eq|].
  split.
  - intros c. rewrite (unique_In cell_same cell_same_eq), in_map_iff.
    split; intros [r [H1 H2]]; exists r; auto.
  - intros before a after b H Hb.
    exact (unique_first_before cell_same cell_same_eq _ _ _ _ _ H Hb).
Qed.

Lemma filter_none {A : Type} (p : A -> bool) (l : list A) :
  (forall a, In a l -> p a = false) -> filter p l = [].
Proof.
  induction l as [|a l IH]; intros H; [reflexivity|].
  cbn [filter]. rewrite (H a (or_introl eq_refl)).
  apply IH. intros b Hb. apply H. right. exact Hb.
Qed.

Lemma cell_eqb_false (a sel : cell) :
  sel = None \/ a <> sel -> cell_eqb a sel = false.
Proof.
  intros [-> | Hne].
  - destruct a; reflexivity.
  - destruct (cell_eqb a sel) eqn:E; [|reflexivity].
    apply cell_eqb_eq in E. contradiction.
Qed.

(** ** X15. A selection that no record carries -- in particular the missing
    value, which the select box offers as soon as a borough cell is blank --
    gives an empty view: no record and no station pass the filter, and the
    page of a file that has a row still renders, with the two total cards
    only (zero ridership, a mean that is NaN), an empty hourly series, empty
    bar charts and a heat map without rows, while the raw-data preview is
    unaffected. *)
Theorem unmatched_selection_renders_empty (sel : cell)
  (df : frame RidershipRecord) :
  df <> [] ->
  sel <> OVERALL ->
  sel = None \/ (forall r, In r (values df) -> borough r <> sel) ->
  let v := filter_view sel df (create_station_summary df) in
  main_df v = []
  /\ station_df v = []
  /\ exists p,
      render plotly_draw df (create_station_summary df) sel = Ok p
      /\ page_metrics p
         = [mkMetric "Total Ridership" (Int 0) None;
            mkMetric "Avg. Ridership / Hour" (Float PrimFloat.nan) None]
      /\ page_line p = []
      /\ page_top_stations p = []
      /\ page_top_transfers p = []
      /\ pivot_index (page_heatmap p) = []
      /\ page_raw_sample p = head 1000 df.
Proof.
  intros Hdf Hne Hsel v.
  assert (Hov : cell_eqb sel OVERALL = false).
  { destruct (cell_eqb sel OVERALL) eqn:E; [|reflexivity].
    apply cell_eqb_eq in E. contradiction. }
  assert (Hmain : filter_records sel df = []).
  { unfold filter_records, select. apply filter_none.
    intros [i r] Hrow. cbn [snd]. apply cell_eqb_false.
    destruct Hsel as [-> | Hsel]; [left; reflexivity | right].
    apply Hsel. unfold values. change r with (snd (i, r)). apply in_map, Hrow. }
  assert (Hstations : filter_summaries sel (create_station_summary df) = []).
  { unfold filter_summaries, select. apply filter_none.
    intros row Hrow. apply cell_eqb_false.
    destruct Hsel as [-> | Hsel]; [left; reflexivity | right].
    apply summary_borough_observed in Hrow. apply in_map_iff in Hrow.
    destruct Hrow as [r [Hb Hr]]. rewrite <- Hb. apply Hsel, Hr. }
  assert (Hv : v = mkView [] [] ("in " ++ cell_str sel) 11%float).
  { subst v. unfold filter_view. rewrite Hov, Hmain, Hstations. reflexivity. }
  rewrite Hv. cbn [main_df station_df].
  split; [reflexivity|]. split; [reflexivity|].
  destruct (render_plotly df (create_station_summary df) sel Hdf)
    as [cards [Hk Hr]].
  { fold v. rewrite Hv. reflexivity. }
  fold v in Hk, Hr. rewrite Hv in Hk, Hr.
  eexists. split; [exact Hr|].
  cbn [page_metrics page_line page_top_stations page_top_transfers
       page_heatmap page_raw_sample].
  split; [injection Hk as <-; reflexivity|].
  repeat split.
Qed.

(** The blank entry of the select box, on data with a blank borough cell. *)
Lemma unmatched_selection_renders_empty_witness :
  In None (borough_list (loaded blank_borough))
  /\ main_df (filter_view None (loaded blank_borough)
                (create_station_summary (loaded blank_borough))) = [].
Proof.
  split; [right; right; left; reflexivity|].
  apply (unmatched_selection_renders_empty None (loaded blank_borough)).
  - discriminate.
  - discriminate.
  - left. reflexivity.
Defined.

(* ================================================================== *)
(** * The script as a whole                                            *)
(* ================================================================== *)



